(** * GPflow documentation notebooks: monitoring and TensorFlow tips

    The repository under study holds two Jupyter notebooks,
    [doc/source/notebooks/advanced/monitoring.ipynb] and a second notebook
    on how GPflow relates to TensorFlow.  This development embeds

    - the behaviour of the code the notebooks author themselves
      ([CustomTensorBoardTask.run], the parameter-sharing cell, the
      save cell), and
    - the notebook documents as data (cells, sources, outputs),

    and proves the properties stated about them. *)

From Stdlib Require Import ZArith String Ascii List Lia.
From stdpp Require Import gmap strings list fin_maps.

Open Scope Z_scope.

(** ** Python integers, ranges and slices *)

Module Py.

(** [len(xs)] *)
Definition len {A} (xs : list A) : Z := Z.of_nat (length xs).

(** [a // b]: floor division; [Z.div] rounds towards minus infinity for
    a positive divisor, as Python does. *)
Definition floordiv (a b : Z) : Z := a / b.

(** [range(k)]: [0, 1, ..., k-1], empty when [k <= 0]. *)
Definition range (k : Z) : list Z := seqZ 0 k.

(** Normalisation of one slice bound against a sequence of length [n]
    (what [slice.indices] does for step 1): a negative bound counts from
    the end, and the result is clipped to [0..n]. *)
Definition clip (i n : Z) : Z :=
  if i <? 0 then Z.max (i + n) 0 else Z.min i n.

(** [xs[a:b]] on the first axis. *)
Definition slice {A} (xs : list A) (a b : Z) : list A :=
  let lo := clip a (len xs) in
  let hi := clip b (len xs) in
  take (Z.to_nat (hi - lo)) (drop (Z.to_nat lo) xs).

End Py.

(** ** monitoring.ipynb: [CustomTensorBoardTask] *)

Module Monitoring.

(** The two placeholders created in [__init__]. *)
Inductive placeholder := full_test_err | full_test_nlpp.

Definition placeholder_eqb (p q : placeholder) : bool :=
  match p, q with
  | full_test_err, full_test_err => true
  | full_test_nlpp, full_test_nlpp => true
  | _, _ => false
  end.

(** [np.vstack]: stacks the blocks row-wise; it raises [ValueError] when
    given no block at all. *)
Definition vstack {A} (blocks : list (list A)) : option (list A) :=
  match blocks with
  | [] => None
  | _ => Some (concat blocks)
  end.

Section CustomTensorBoardTask.

(** Rows of the test inputs, rows of predictions and targets, and the
    float type of the summaries. *)
Context {Row Pred F Model : Type}.

(** [self.model.predict_y]: returns the pair (mean, variance). *)
Variable predict_y : Model -> list Row -> list Pred * list Pred.

(** [np.mean((Yt - preds) ** 2.0)**0.5], floating point, kept abstract.
    The subtraction [Yt - preds] raises [ValueError] when the shapes of the
    two arrays do not broadcast; [None] stands for that. *)
Variable rmse : list Pred -> list Pred -> option F.

(** The float literal [0.0]. *)
Variable zero : F.

(** The instance built by [__init__]: [self.model], [self.Xt],
    [self.Yt]. *)
Record task := Task { model : Model; self_Xt : list Row; self_Yt : list Pred }.

(** The notebook globals [Xt] and [Yt]; [run] reads these, not the
    attributes of [self]. *)
Record globals := Globals { Xt : list Row; Yt : list Pred }.

Definition minibatch_size : Z := 100.

(** The loop bound [-(-len(Xt) // minibatch_size)]. *)
Definition n_batches (n : Z) : Z := - Py.floordiv (- n) minibatch_size.

(** [Xt[mb * minibatch_size:(mb + 1) * minibatch_size, :]] *)
Definition minibatch (xs : list Row) (mb : Z) : list Row :=
  Py.slice xs (mb * minibatch_size) ((mb + 1) * minibatch_size).

(** The slices the comprehension ranges over. *)
Definition minibatches (xs : list Row) : list (list Row) :=
  map (minibatch xs) (Py.range (n_batches (Py.len xs))).

(** The list comprehension: the mean ([[0]]) of each batch prediction. *)
Definition batch_preds (self : task) (g : globals) : list (list Pred) :=
  map (fun mb => fst (predict_y (model self) (minibatch (Xt g) mb)))
      (Py.range (n_batches (Py.len (Xt g)))).

(** [preds] *)
Definition preds (self : task) (g : globals) : option (list Pred) :=
  vstack (batch_preds self g).

(** [run]: the feed dictionary handed to [self._eval_summary], or [None]
    when an exception is raised before that call. *)
Definition run (self : task) (g : globals) : option (list (placeholder * F)) :=
  match preds self g with
  | None => None
  | Some ps =>
      match rmse (Yt g) ps with
      | None => None
      | Some test_err => Some [(full_test_err, test_err); (full_test_nlpp, zero)]
      end
  end.

(** Lookup in the feed dictionary. *)
Fixpoint feed_get (fd : list (placeholder * F)) (p : placeholder) : option F :=
  match fd with
  | [] => None
  | (q, v) :: fd' => if placeholder_eqb q p then Some v else feed_get fd' p
  end.

End CustomTensorBoardTask.

End Monitoring.

(** ** The notebook documents

    A notebook is a JSON document in nbformat 4: a list of cells and a
    metadata block.  The cells below are the cells of the two notebooks in
    their order.  Every entry of a [source] or [text] array is one line; the
    newline that ends an entry in the JSON is not kept. *)

Module Nb.

Open Scope string_scope.

Inductive cell_type := markdown | code.

Inductive output :=
| stream (name : string) (text : list string)
| execute_result (execution_count : Z) (text_plain : list string).

Record cell := Cell {
  kind : cell_type;
  execution_count : option Z;
  source : list string;
  outputs : list output
}.

Definition markdown_cell (src : list string) : cell :=
  Cell markdown None src [].

Definition code_cell (n : option Z) (src : list string) (outs : list output) : cell :=
  Cell code n src outs.

Record notebook := {
  cells : list cell;
  kernelspec_language : string;
  kernelspec_name : string;
  language_version : string;
  nbformat : Z;
  nbformat_minor : Z
}.

(** Characters that cannot be written inside a string literal here: the
    double quote, the tab, the backslash that continues a line, and the two
    block glyphs of the progress bars
    (UTF-8, three bytes each). *)
Definition dq : string := String "034" EmptyString.
Definition tab : string := String "009" EmptyString.
Definition bslash : string := String "092" EmptyString.
Definition blk : string := String "226" (String "150" (String "136" EmptyString)).
Definition half : string := String "226" (String "150" (String "140" EmptyString)).

Definition monitoring_cell_00 : cell :=
  markdown_cell
    [ "# Monitoring optimisation";
      EmptyString;
      "In this notebook we'll demo how to use `gpflow.training.monitor` for logging the optimisation of a GPflow model." ].

Definition monitoring_cell_01 : cell :=
  code_cell (Some 2)
    [ "import itertools";
      "import os";
      "import numpy as np";
      "import gpflow";
      "import gpflow.training.monitor as mon";
      "import numbers";
      "import matplotlib.pyplot as plt";
      "import tensorflow as tf";
      EmptyString;
      "%matplotlib inline" ]
    [].

Definition monitoring_cell_02 : cell :=
  markdown_cell
    [ "## Creating the GPflow model";
      "We first generate some random data and create a GPflow model.";
      EmptyString;
      "Under the hood, GPflow gives a unique name to each model which is used to name the Variables it creates in the TensorFlow graph containing a random identifier. This is useful in interactive sessions, where people may create a few models, to prevent variables with the same name conflicting. However, when loading the model, we need to make sure that the names of all the variables are exactly the same as in the checkpoint. This is why we pass name=" +:+ dq +:+ "SVGP" +:+ dq +:+ " to the model constructor, and why we use gpflow.defer_build()." ].

Definition monitoring_cell_03 : cell :=
  code_cell (Some 2)
    [ "np.random.seed(0)";
      "X = np.random.rand(10000, 1) * 10";
      "Y = np.sin(X) + np.random.randn(" +:+ "*X.shape)";
      "Xt = np.random.rand(10000, 1) * 10";
      "Yt = np.sin(Xt) + np.random.randn(" +:+ "*Xt.shape)";
      EmptyString;
      "with gpflow.defer_build():";
      "    m = gpflow.models.SVGP(X, Y, gpflow.kernels.RBF(1), gpflow.likelihoods.Gaussian(),";
      "                           Z=np.linspace(0, 10, 5)[:, None],";
      "                           minibatch_size=100, name=" +:+ dq +:+ "SVGP" +:+ dq +:+ ")";
      "    m.likelihood.variance = 0.01";
      "m.compile()" ]
    [].

Definition monitoring_cell_04 : cell :=
  markdown_cell
    [ "Let's compute log likelihood before the optimisation" ].

Definition monitoring_cell_05 : cell :=
  code_cell (Some 3)
    [ "print('LML before the optimisation: %f' % m.compute_log_likelihood())" ]
    [ stream "stdout"
        [ "LML before the optimisation: -1271605.621944" ] ].

Definition monitoring_cell_06 : cell :=
  markdown_cell
    [ "We will be using a TensorFlow optimiser. All TensorFlow optimisers have a support for `global_step` variable. Its purpose is to track how many optimisation steps have occurred. It is useful to keep this in a TensorFlow variable as this allows it to be restored together with all the parameters of the model.";
      EmptyString;
      "The code below creates this variable using a monitor's helper function. It is important to create it before building the monitor in case the monitor includes a checkpoint task. This is because the checkpoint internally uses the TensorFlow Saver which creates a list of variables to save. Therefore all variables expected to be saved by the checkpoint task should exist by the time the task is created." ].

Definition monitoring_cell_07 : cell :=
  code_cell (Some 4)
    [ "session = m.enquire_session()";
      "global_step = mon.create_global_step(session)" ]
    [].

Definition monitoring_cell_08 : cell :=
  markdown_cell
    [ "## Construct the monitor";
      EmptyString;
      "Next we need to construct the monitor. `gpflow.training.monitor` provides classes that are building blocks for the monitor. Essengially, a monitor is a function that is provided as a callback to an optimiser. It consists of a number of tasks that may be executed at each step, subject to their running condition.";
      EmptyString;
      "In this example, we want to:";
      "- log certain scalar parameters in TensorBoard,";
      "- log the full optimisation objective (log marginal likelihood bound) periodically, even though we optimise with minibatches,";
      "- store a backup of the optimisation process periodically,";
      "- log performance for a test set periodically.";
      EmptyString;
      "We will define these tasks as follows:" ].

Definition monitoring_cell_09 : cell :=
  code_cell (Some 5)
    [ "print_task = mon.PrintTimingsTask().with_name('print')" +:+ bslash;
      "    .with_condition(mon.PeriodicIterationCondition(10))" +:+ bslash;
      "    .with_exit_condition(True)";
      EmptyString;
      "sleep_task = mon.SleepTask(0.01).with_name('sleep').with_name('sleep')";
      EmptyString;
      "saver_task = mon.CheckpointTask('./monitor-saves').with_name('saver')" +:+ bslash;
      "    .with_condition(mon.PeriodicIterationCondition(10))" +:+ bslash;
      "    .with_exit_condition(True)";
      EmptyString;
      "file_writer = mon.LogdirWriter('./model-tensorboard')";
      EmptyString;
      "model_tboard_task = mon.ModelToTensorBoardTask(file_writer, m).with_name('model_tboard')" +:+ bslash;
      "    .with_condition(mon.PeriodicIterationCondition(10))" +:+ bslash;
      "    .with_exit_condition(True)";
      EmptyString;
      "lml_tboard_task = mon.LmlToTensorBoardTask(file_writer, m).with_name('lml_tboard')" +:+ bslash;
      "    .with_condition(mon.PeriodicIterationCondition(100))" +:+ bslash;
      "    .with_exit_condition(True)" ]
    [].

Definition monitoring_cell_10 : cell :=
  markdown_cell
    [ "As the above code shows, each task can be assigned a name and running conditions. The name will be shown in the task timing summary.";
      EmptyString;
      "There are two different types of running conditions: `with_condition` controls execution of the task at each iteration in the optimisation loop. `with_exit_condition` is a simple boolean flag indicating that the task should also run at the end of optimisation.";
      "In this example we want to run our tasks periodically, at every iteration or every 10th or 100th iteration.";
      EmptyString;
      "Notice that the two TensorBoard tasks will write events into the same file. It is possible to share a file writer between multiple tasks. However it is not possible to share the same event location between multiple file writers. An attempt to open two writers with the same location will result in error." ].

Definition monitoring_cell_11 : cell :=
  markdown_cell
    [ "## Custom tasks";
      "We may also want to perfom certain tasks that do not have pre-defined `Task` classes. For example, we may want to compute the performance on a test set. Here we create such a class by extending `BaseTensorBoardTask` to log the testing benchmarks in addition to all the scalar parameters." ].

Definition monitoring_cell_12 : cell :=
  code_cell (Some 6)
    [ "class CustomTensorBoardTask(mon.BaseTensorBoardTask):";
      "    def __init__(self, file_writer, model, Xt, Yt):";
      "        super().__init__(file_writer, model)";
      "        self.Xt = Xt";
      "        self.Yt = Yt";
      "        self._full_test_err = tf.placeholder(gpflow.settings.float_type, shape=())";
      "        self._full_test_nlpp = tf.placeholder(gpflow.settings.float_type, shape=())";
      "        self._summary = tf.summary.merge([tf.summary.scalar(" +:+ dq +:+ "test_rmse" +:+ dq +:+ ", self._full_test_err),";
      "                                         tf.summary.scalar(" +:+ dq +:+ "test_nlpp" +:+ dq +:+ ", self._full_test_nlpp)])";
      "    ";
      "    def run(self, context: mon.MonitorContext, *args, **kwargs) -> None:";
      "        minibatch_size = 100";
      "        preds = np.vstack([self.model.predict_y(Xt[mb * minibatch_size:(mb + 1) * minibatch_size, :])[0]";
      "                            for mb in range(-(-len(Xt) // minibatch_size))])";
      "        test_err = np.mean((Yt - preds) ** 2.0)**0.5";
      "        self._eval_summary(context, {self._full_test_err: test_err, self._full_test_nlpp: 0.0})";
      EmptyString;
      "        ";
      "custom_tboard_task = CustomTensorBoardTask(file_writer, m, Xt, Yt).with_name('custom_tboard')" +:+ bslash;
      "    .with_condition(mon.PeriodicIterationCondition(100))" +:+ bslash;
      "    .with_exit_condition(True)" ]
    [].

Definition monitoring_cell_13 : cell :=
  markdown_cell
    [ "Now we can put all these tasks into a monitor." ].

Definition monitoring_cell_14 : cell :=
  code_cell (Some 7)
    [ "monitor_tasks = [print_task, model_tboard_task, lml_tboard_task, custom_tboard_task, saver_task, sleep_task]";
      "monitor = mon.Monitor(monitor_tasks, session, global_step)" ]
    [].

Definition monitoring_cell_15 : cell :=
  markdown_cell
    [ "## Running the optimisation";
      "We finally get to running the optimisation.";
      EmptyString;
      "We may want to continue a previously run optimisation by resotring the TensorFlow graph from the latest checkpoint. Otherwise skip this step." ].

Definition monitoring_cell_16 : cell :=
  code_cell (Some 8)
    [ "if os.path.isdir('./monitor-saves'):";
      "    mon.restore_session(session, './monitor-saves')" ]
    [].

Definition monitoring_cell_17 : cell :=
  code_cell (Some 9)
    [ "optimiser = gpflow.train.AdamOptimizer(0.01)";
      EmptyString;
      "with mon.Monitor(monitor_tasks, session, global_step, print_summary=True) as monitor:";
      "    optimiser.minimize(m, step_callback=monitor, maxiter=450, global_step=global_step)";
      EmptyString;
      "file_writer.close()" ]
    [ stream "stdout"
        [ "Iteration 10" +:+ tab +:+ "total itr.rate 12.02/s" +:+ tab +:+ "recent itr.rate 12.02/s" +:+ tab +:+ "opt.step 10" +:+ tab +:+ "total opt.rate 13.49/s" +:+ tab +:+ "recent opt.rate 13.49/s";
          "Iteration 20" +:+ tab +:+ "total itr.rate 17.87/s" +:+ tab +:+ "recent itr.rate 34.80/s" +:+ tab +:+ "opt.step 20" +:+ tab +:+ "total opt.rate 26.54/s" +:+ tab +:+ "recent opt.rate 820.59/s";
          "Iteration 30" +:+ tab +:+ "total itr.rate 22.46/s" +:+ tab +:+ "recent itr.rate 46.27/s" +:+ tab +:+ "opt.step 30" +:+ tab +:+ "total opt.rate 38.90/s" +:+ tab +:+ "recent opt.rate 561.37/s";
          "Iteration 40" +:+ tab +:+ "total itr.rate 25.89/s" +:+ tab +:+ "recent itr.rate 47.68/s" +:+ tab +:+ "opt.step 40" +:+ tab +:+ "total opt.rate 50.75/s" +:+ tab +:+ "recent opt.rate 592.97/s";
          "Iteration 50" +:+ tab +:+ "total itr.rate 28.44/s" +:+ tab +:+ "recent itr.rate 46.94/s" +:+ tab +:+ "opt.step 50" +:+ tab +:+ "total opt.rate 62.08/s" +:+ tab +:+ "recent opt.rate 580.30/s";
          "Iteration 60" +:+ tab +:+ "total itr.rate 30.37/s" +:+ tab +:+ "recent itr.rate 45.99/s" +:+ tab +:+ "opt.step 60" +:+ tab +:+ "total opt.rate 72.80/s" +:+ tab +:+ "recent opt.rate 530.95/s";
          "Iteration 70" +:+ tab +:+ "total itr.rate 31.95/s" +:+ tab +:+ "recent itr.rate 46.39/s" +:+ tab +:+ "opt.step 70" +:+ tab +:+ "total opt.rate 83.31/s" +:+ tab +:+ "recent opt.rate 625.60/s";
          "Iteration 80" +:+ tab +:+ "total itr.rate 33.26/s" +:+ tab +:+ "recent itr.rate 46.73/s" +:+ tab +:+ "opt.step 80" +:+ tab +:+ "total opt.rate 93.33/s" +:+ tab +:+ "recent opt.rate 588.08/s" ];
      stream "stderr"
        [ "  0%|          | 0/100 [00:00<?, ?it/s]" ];
      stream "stdout"
        [ "Iteration 90" +:+ tab +:+ "total itr.rate 34.27/s" +:+ tab +:+ "recent itr.rate 45.25/s" +:+ tab +:+ "opt.step 90" +:+ tab +:+ "total opt.rate 102.96/s" +:+ tab +:+ "recent opt.rate 591.78/s";
          "Iteration 100" +:+ tab +:+ "total itr.rate 35.43/s" +:+ tab +:+ "recent itr.rate 50.97/s" +:+ tab +:+ "opt.step 100" +:+ tab +:+ "total opt.rate 113.15/s" +:+ tab +:+ "recent opt.rate 1032.42/s" ];
      stream "stderr"
        [ "100%|" +:+ blk +:+ blk +:+ blk +:+ blk +:+ blk +:+ blk +:+ blk +:+ blk +:+ blk +:+ blk +:+ "| 100/100 [00:00<00:00, 398.93it/s]" ];
      stream "stdout"
        [ "Iteration 110" +:+ tab +:+ "total itr.rate 30.03/s" +:+ tab +:+ "recent itr.rate 11.91/s" +:+ tab +:+ "opt.step 110" +:+ tab +:+ "total opt.rate 122.28/s" +:+ tab +:+ "recent opt.rate 632.37/s";
          "Iteration 120" +:+ tab +:+ "total itr.rate 30.81/s" +:+ tab +:+ "recent itr.rate 43.03/s" +:+ tab +:+ "opt.step 120" +:+ tab +:+ "total opt.rate 129.67/s" +:+ tab +:+ "recent opt.rate 387.68/s";
          "Iteration 130" +:+ tab +:+ "total itr.rate 31.56/s" +:+ tab +:+ "recent itr.rate 44.48/s" +:+ tab +:+ "opt.step 130" +:+ tab +:+ "total opt.rate 138.16/s" +:+ tab +:+ "recent opt.rate 643.12/s";
          "Iteration 140" +:+ tab +:+ "total itr.rate 32.36/s" +:+ tab +:+ "recent itr.rate 48.50/s" +:+ tab +:+ "opt.step 140" +:+ tab +:+ "total opt.rate 147.09/s" +:+ tab +:+ "recent opt.rate 920.47/s";
          "Iteration 150" +:+ tab +:+ "total itr.rate 33.22/s" +:+ tab +:+ "recent itr.rate 52.80/s" +:+ tab +:+ "opt.step 150" +:+ tab +:+ "total opt.rate 156.02/s" +:+ tab +:+ "recent opt.rate 1041.22/s";
          "Iteration 160" +:+ tab +:+ "total itr.rate 34.03/s" +:+ tab +:+ "recent itr.rate 53.58/s" +:+ tab +:+ "opt.step 160" +:+ tab +:+ "total opt.rate 164.78/s" +:+ tab +:+ "recent opt.rate 1044.40/s";
          "Iteration 170" +:+ tab +:+ "total itr.rate 34.60/s" +:+ tab +:+ "recent itr.rate 47.35/s" +:+ tab +:+ "opt.step 170" +:+ tab +:+ "total opt.rate 172.78/s" +:+ tab +:+ "recent opt.rate 772.81/s";
          "Iteration 180" +:+ tab +:+ "total itr.rate 35.05/s" +:+ tab +:+ "recent itr.rate 45.10/s" +:+ tab +:+ "opt.step 180" +:+ tab +:+ "total opt.rate 179.82/s" +:+ tab +:+ "recent opt.rate 585.96/s";
          "Iteration 190" +:+ tab +:+ "total itr.rate 35.58/s" +:+ tab +:+ "recent itr.rate 48.83/s" +:+ tab +:+ "opt.step 190" +:+ tab +:+ "total opt.rate 186.93/s" +:+ tab +:+ "recent opt.rate 648.86/s" ];
      stream "stderr"
        [ " 40%|" +:+ blk +:+ blk +:+ blk +:+ blk +:+ "      | 40/100 [00:00<00:00, 392.52it/s]" ];
      stream "stdout"
        [ "Iteration 200" +:+ tab +:+ "total itr.rate 35.98/s" +:+ tab +:+ "recent itr.rate 45.64/s" +:+ tab +:+ "opt.step 200" +:+ tab +:+ "total opt.rate 194.89/s" +:+ tab +:+ "recent opt.rate 1019.55/s" ];
      stream "stderr"
        [ "100%|" +:+ blk +:+ blk +:+ blk +:+ blk +:+ blk +:+ blk +:+ blk +:+ blk +:+ blk +:+ blk +:+ "| 100/100 [00:00<00:00, 412.92it/s]" ];
      stream "stdout"
        [ "Iteration 210" +:+ tab +:+ "total itr.rate 33.91/s" +:+ tab +:+ "recent itr.rate 15.77/s" +:+ tab +:+ "opt.step 210" +:+ tab +:+ "total opt.rate 201.35/s" +:+ tab +:+ "recent opt.rate 596.64/s";
          "Iteration 220" +:+ tab +:+ "total itr.rate 34.30/s" +:+ tab +:+ "recent itr.rate 45.05/s" +:+ tab +:+ "opt.step 220" +:+ tab +:+ "total opt.rate 207.74/s" +:+ tab +:+ "recent opt.rate 622.73/s";
          "Iteration 230" +:+ tab +:+ "total itr.rate 34.59/s" +:+ tab +:+ "recent itr.rate 42.48/s" +:+ tab +:+ "opt.step 230" +:+ tab +:+ "total opt.rate 212.04/s" +:+ tab +:+ "recent opt.rate 389.84/s";
          "Iteration 240" +:+ tab +:+ "total itr.rate 35.06/s" +:+ tab +:+ "recent itr.rate 51.18/s" +:+ tab +:+ "opt.step 240" +:+ tab +:+ "total opt.rate 218.12/s" +:+ tab +:+ "recent opt.rate 640.71/s";
          "Iteration 250" +:+ tab +:+ "total itr.rate 35.33/s" +:+ tab +:+ "recent itr.rate 43.37/s" +:+ tab +:+ "opt.step 250" +:+ tab +:+ "total opt.rate 222.00/s" +:+ tab +:+ "recent opt.rate 387.30/s";
          "Iteration 260" +:+ tab +:+ "total itr.rate 35.60/s" +:+ tab +:+ "recent itr.rate 43.86/s" +:+ tab +:+ "opt.step 260" +:+ tab +:+ "total opt.rate 225.89/s" +:+ tab +:+ "recent opt.rate 401.48/s";
          "Iteration 270" +:+ tab +:+ "total itr.rate 35.95/s" +:+ tab +:+ "recent itr.rate 48.54/s" +:+ tab +:+ "opt.step 270" +:+ tab +:+ "total opt.rate 232.38/s" +:+ tab +:+ "recent opt.rate 920.79/s";
          "Iteration 280" +:+ tab +:+ "total itr.rate 36.24/s" +:+ tab +:+ "recent itr.rate 46.05/s" +:+ tab +:+ "opt.step 280" +:+ tab +:+ "total opt.rate 237.52/s" +:+ tab +:+ "recent opt.rate 589.08/s" ];
      stream "stderr"
        [ "  0%|          | 0/100 [00:00<?, ?it/s]" ];
      stream "stdout"
        [ "Iteration 290" +:+ tab +:+ "total itr.rate 36.50/s" +:+ tab +:+ "recent itr.rate 45.99/s" +:+ tab +:+ "opt.step 290" +:+ tab +:+ "total opt.rate 241.64/s" +:+ tab +:+ "recent opt.rate 470.47/s";
          "Iteration 300" +:+ tab +:+ "total itr.rate 36.87/s" +:+ tab +:+ "recent itr.rate 52.17/s" +:+ tab +:+ "opt.step 300" +:+ tab +:+ "total opt.rate 248.00/s" +:+ tab +:+ "recent opt.rate 1043.23/s" ];
      stream "stderr"
        [ "100%|" +:+ blk +:+ blk +:+ blk +:+ blk +:+ blk +:+ blk +:+ blk +:+ blk +:+ blk +:+ blk +:+ "| 100/100 [00:00<00:00, 435.19it/s]" ];
      stream "stdout"
        [ "Iteration 310" +:+ tab +:+ "total itr.rate 35.38/s" +:+ tab +:+ "recent itr.rate 16.01/s" +:+ tab +:+ "opt.step 310" +:+ tab +:+ "total opt.rate 254.02/s" +:+ tab +:+ "recent opt.rate 938.13/s";
          "Iteration 320" +:+ tab +:+ "total itr.rate 35.70/s" +:+ tab +:+ "recent itr.rate 49.13/s" +:+ tab +:+ "opt.step 320" +:+ tab +:+ "total opt.rate 257.69/s" +:+ tab +:+ "recent opt.rate 466.20/s";
          "Iteration 330" +:+ tab +:+ "total itr.rate 35.93/s" +:+ tab +:+ "recent itr.rate 45.17/s" +:+ tab +:+ "opt.step 330" +:+ tab +:+ "total opt.rate 262.70/s" +:+ tab +:+ "recent opt.rate 696.29/s";
          "Iteration 340" +:+ tab +:+ "total itr.rate 36.18/s" +:+ tab +:+ "recent itr.rate 47.40/s" +:+ tab +:+ "opt.step 340" +:+ tab +:+ "total opt.rate 267.10/s" +:+ tab +:+ "recent opt.rate 595.96/s";
          "Iteration 350" +:+ tab +:+ "total itr.rate 36.34/s" +:+ tab +:+ "recent itr.rate 42.88/s" +:+ tab +:+ "opt.step 350" +:+ tab +:+ "total opt.rate 269.13/s" +:+ tab +:+ "recent opt.rate 362.87/s";
          "Iteration 360" +:+ tab +:+ "total itr.rate 36.68/s" +:+ tab +:+ "recent itr.rate 53.97/s" +:+ tab +:+ "opt.step 360" +:+ tab +:+ "total opt.rate 274.80/s" +:+ tab +:+ "recent opt.rate 1046.37/s";
          "Iteration 370" +:+ tab +:+ "total itr.rate 36.97/s" +:+ tab +:+ "recent itr.rate 51.59/s" +:+ tab +:+ "opt.step 370" +:+ tab +:+ "total opt.rate 278.99/s" +:+ tab +:+ "recent opt.rate 618.95/s";
          "Iteration 380" +:+ tab +:+ "total itr.rate 37.12/s" +:+ tab +:+ "recent itr.rate 43.85/s" +:+ tab +:+ "opt.step 380" +:+ tab +:+ "total opt.rate 283.17/s" +:+ tab +:+ "recent opt.rate 635.62/s";
          "Iteration 390" +:+ tab +:+ "total itr.rate 37.25/s" +:+ tab +:+ "recent itr.rate 43.20/s" +:+ tab +:+ "opt.step 390" +:+ tab +:+ "total opt.rate 284.76/s" +:+ tab +:+ "recent opt.rate 361.88/s" ];
      stream "stderr"
        [ " 31%|" +:+ blk +:+ blk +:+ blk +:+ "       | 31/100 [00:00<00:00, 308.62it/s]" ];
      stream "stdout"
        [ "Iteration 400" +:+ tab +:+ "total itr.rate 37.46/s" +:+ tab +:+ "recent itr.rate 48.07/s" +:+ tab +:+ "opt.step 400" +:+ tab +:+ "total opt.rate 288.56/s" +:+ tab +:+ "recent opt.rate 601.72/s" ];
      stream "stderr"
        [ "100%|" +:+ blk +:+ blk +:+ blk +:+ blk +:+ blk +:+ blk +:+ blk +:+ blk +:+ blk +:+ blk +:+ "| 100/100 [00:00<00:00, 390.14it/s]" ];
      stream "stdout"
        [ "Iteration 410" +:+ tab +:+ "total itr.rate 36.13/s" +:+ tab +:+ "recent itr.rate 14.87/s" +:+ tab +:+ "opt.step 410" +:+ tab +:+ "total opt.rate 290.23/s" +:+ tab +:+ "recent opt.rate 377.88/s";
          "Iteration 420" +:+ tab +:+ "total itr.rate 36.30/s" +:+ tab +:+ "recent itr.rate 45.32/s" +:+ tab +:+ "opt.step 420" +:+ tab +:+ "total opt.rate 294.90/s" +:+ tab +:+ "recent opt.rate 865.01/s";
          "Iteration 430" +:+ tab +:+ "total itr.rate 36.53/s" +:+ tab +:+ "recent itr.rate 49.97/s" +:+ tab +:+ "opt.step 430" +:+ tab +:+ "total opt.rate 298.60/s" +:+ tab +:+ "recent opt.rate 631.63/s";
          "Iteration 440" +:+ tab +:+ "total itr.rate 36.78/s" +:+ tab +:+ "recent itr.rate 51.44/s" +:+ tab +:+ "opt.step 440" +:+ tab +:+ "total opt.rate 302.12/s" +:+ tab +:+ "recent opt.rate 613.32/s";
          "Iteration 450" +:+ tab +:+ "total itr.rate 36.93/s" +:+ tab +:+ "recent itr.rate 44.99/s" +:+ tab +:+ "opt.step 450" +:+ tab +:+ "total opt.rate 305.26/s" +:+ tab +:+ "recent opt.rate 562.42/s" ];
      stream "stderr"
        [ " 46%|" +:+ blk +:+ blk +:+ blk +:+ blk +:+ half +:+ "     | 46/100 [00:00<00:00, 459.75it/s]" ];
      stream "stdout"
        [ "Iteration 450" +:+ tab +:+ "total itr.rate 36.00/s" +:+ tab +:+ "recent itr.rate 0.00/s" +:+ tab +:+ "opt.step 450" +:+ tab +:+ "total opt.rate 268.14/s" +:+ tab +:+ "recent opt.rate 0.00/s" ];
      stream "stderr"
        [ "100%|" +:+ blk +:+ blk +:+ blk +:+ blk +:+ blk +:+ blk +:+ blk +:+ blk +:+ blk +:+ blk +:+ "| 100/100 [00:00<00:00, 466.34it/s]" ];
      stream "stdout"
        [ "Tasks execution time summary:";
          "print:" +:+ tab +:+ "0.0385 (sec)";
          "model_tboard:" +:+ tab +:+ "0.2123 (sec)";
          "lml_tboard:" +:+ tab +:+ "1.2115 (sec)";
          "custom_tboard:" +:+ tab +:+ "1.2399 (sec)";
          "saver:" +:+ tab +:+ "4.0557 (sec)";
          "sleep:" +:+ tab +:+ "4.5382 (sec)" ] ].

Definition monitoring_cell_18 : cell :=
  markdown_cell
    [ "Now lets compute the log likelihood again. Hopefully we will see an increase in its value" ].

Definition monitoring_cell_19 : cell :=
  code_cell (Some 10)
    [ "print('LML after the optimisation: %f' % m.compute_log_likelihood())" ]
    [ stream "stdout"
        [ "LML after the optimisation: -68705.124191" ] ].

Definition monitoring_cell_20 : cell :=
  markdown_cell
    [ "In this example we have used the TensorFlow `AdamOptimizer`. Using `ScipyOptimizer` requires a couple of special tricks. Firstly, this optimiser works with its own copy of trained variables and updates the original ones only when the optimisation is completed. Secondly, it doesn't use the `global_step` variable. This can present a problem when doing optimisation in several stages. Monitor has to use an iteration count instead of the `global_step`, which will be reset to zero at each stage.";
      EmptyString;
      "To adress the first problem we will provide the optimiser as one of the parameters to the monitor. The monitor will make sure the orginal variables are updated whenever we access them from a monitoring task. The second problem is addressed by creating an instance of `MonitorContext` and providing it explicitely to the `Monitor`." ].

Definition monitoring_cell_21 : cell :=
  code_cell (Some 11)
    [ "optimiser = gpflow.train.ScipyOptimizer()";
      "context = mon.MonitorContext()";
      EmptyString;
      "with mon.Monitor([print_task], session, print_summary=True, optimiser=optimiser, context=context) as monitor:";
      "    optimiser.minimize(m, step_callback=monitor, maxiter=250)" ]
    [ stream "stdout"
        [ "INFO:tensorflow:Optimization terminated with:";
          "  Message: b'CONVERGENCE: REL_REDUCTION_OF_F_<=_FACTR*EPSMCH'";
          "  Objective function value: 15576.597541";
          "  Number of iterations: 5";
          "  Number of functions evaluations: 12" ];
      stream "stderr"
        [ "INFO:tensorflow:Optimization terminated with:";
          "  Message: b'CONVERGENCE: REL_REDUCTION_OF_F_<=_FACTR*EPSMCH'";
          "  Objective function value: 15576.597541";
          "  Number of iterations: 5";
          "  Number of functions evaluations: 12" ];
      stream "stdout"
        [ "Iteration 5" +:+ tab +:+ "total itr.rate 5.46/s" +:+ tab +:+ "recent itr.rate nan/s" +:+ tab +:+ "opt.step 5" +:+ tab +:+ "total opt.rate 5.46/s" +:+ tab +:+ "recent opt.rate nan/s";
          "Tasks execution time summary:";
          "print:" +:+ tab +:+ "0.0386 (sec)" ] ].

Definition monitoring_cell_22 : cell :=
  code_cell None
    []
    [].

(** doc/source/notebooks/advanced/monitoring.ipynb *)
Definition monitoring : notebook :=
  {| cells :=
       [ monitoring_cell_00; monitoring_cell_01; monitoring_cell_02; monitoring_cell_03;
         monitoring_cell_04; monitoring_cell_05; monitoring_cell_06; monitoring_cell_07;
         monitoring_cell_08; monitoring_cell_09; monitoring_cell_10; monitoring_cell_11;
         monitoring_cell_12; monitoring_cell_13; monitoring_cell_14; monitoring_cell_15;
         monitoring_cell_16; monitoring_cell_17; monitoring_cell_18; monitoring_cell_19;
         monitoring_cell_20; monitoring_cell_21; monitoring_cell_22 ];
     kernelspec_language := "python";
     kernelspec_name := "python3";
     language_version := "3.6.5";
     nbformat := 4;
     nbformat_minor := 2 |}.

Definition tips_cell_00 : cell :=
  markdown_cell
    [ "How GPflow relates to TensorFlow: Tips & Tricks ";
      "--";
      EmptyString;
      "GPflow is built on top of TensorFlow, so it is useful to have some understanding of how TensorFlow works. Particularly, TensorFlow's two-stage concept of first building a static compute graph and then executing it for specific input values passed in gives rise to a bunch of potential pitfalls. This notebook aims to help with the most common issues." ].

Definition tips_cell_01 : cell :=
  code_cell (Some 1)
    [ "from pathlib import Path";
      "import gpflow";
      "import tensorflow as tf";
      "import numpy as np";
      "import warnings";
      EmptyString;
      "import numpy as np";
      "import gpflow as gp";
      EmptyString;
      "import gpflow.multioutput.kernels as mk";
      EmptyString;
      "from gpflow import settings" ]
    [].

Definition tips_cell_02 : cell :=
  markdown_cell
    [ "### 1. Computation time increases when I create gpflow objects." ].

Definition tips_cell_03 : cell :=
  markdown_cell
    [ "This example below illustrates typical situation when a computation time increases proportionally to the number of created GPflow objects." ].

Definition tips_cell_04 : cell :=
  code_cell (Some 2)
    [ "for n in range(2, 4):";
      "    kernel = gpflow.kernels.RBF(input_dim=1)  # This is a gpflow object with tf.Variables inside";
      "    x = np.random.randn(n, 1)  # gpflow expects rank-2 input matrices, even for D=1";
      "    kxx = kernel.K(x)  # This is a tensor!" ]
    [].

Definition tips_cell_05 : cell :=
  markdown_cell
    [ "**Remember, we operate on a tensorflow graph!**";
      EmptyString;
      "Everytime we create (build and compile) a new gpflow object, although we overwrite the kernel variable, we keep adding more tensors to the graph and just change the reference to them.";
      EmptyString;
      "So, unnecessary expansion of the graph slows down your computation!" ].

Definition tips_cell_06 : cell :=
  markdown_cell
    [ "In examples below we are fixing the issue (imagine running this code snippet in `ipython` again and again):" ].

Definition tips_cell_07 : cell :=
  code_cell (Some 3)
    [ "for n in range(2, 4):";
      "    gpflow.reset_default_graph_and_session()";
      "    kernel = gpflow.kernels.RBF(1)";
      "    x = np.random.randn(n, 1)";
      "    kxx = kernel.K(x)" ]
    [].

Definition tips_cell_08 : cell :=
  markdown_cell
    [ "Here we were simply resetting the default graph and session using gpflow's `reset_default_graph_and_session()` function. In the next example we explicitly build new `tf.Graph()` and `tf.Session()` objects:" ].

Definition tips_cell_09 : cell :=
  code_cell (Some 4)
    [ "for n in range(2, 4):";
      "    with tf.Graph().as_default() as graph:";
      "        with tf.Session(graph=graph).as_default():";
      "            kernel = gpflow.kernels.RBF(1)";
      "            x = np.random.randn(n, 1)";
      "            kxx = kernel.K(x)" ]
    [].

Definition tips_cell_10 : cell :=
  markdown_cell
    [ "In [External Mean Function notebook](tailor/external-mean-function.ipynb) we show a more real-life example of this idea." ].

Definition tips_cell_11 : cell :=
  markdown_cell
    [ "### 2. How can I reuse a model on different data?" ].

Definition tips_cell_12 : cell :=
  code_cell (Some 5)
    [ "np.random.seed(1)";
      "x = np.random.randn(2, 1)";
      "y = np.random.randn(2, 1)";
      "kernel = gpflow.kernels.RBF(1)";
      "model = gpflow.models.GPR(x, y, kernel)";
      "print(model.compute_log_likelihood())";
      EmptyString;
      "x_new = np.random.randn(100, 1)";
      "y_new = np.random.randn(100, 1)" ]
    [ stream "stdout"
        [ "-2.8766930392437593" ] ].

Definition tips_cell_13 : cell :=
  markdown_cell
    [ "We can compute the loglikelihood of the model on different data. Note, we didn't change the original model!" ].

Definition tips_cell_14 : cell :=
  code_cell (Some 6)
    [ "x_tensor = model.X.parameter_tensor";
      "y_tensor = model.Y.parameter_tensor";
      "model.compute_log_likelihood(feed_dict={x_tensor: x_new, y_tensor: y_new})  # we can still probe the model with the old data" ]
    [ execute_result 6
        [ "-140.83017563045192" ] ].

Definition tips_cell_15 : cell :=
  markdown_cell
    [ "We can do the same by updating (permanently) the value of the dataholders." ].

Definition tips_cell_16 : cell :=
  code_cell (Some 7)
    [ "model.X = x_new";
      "model.Y = y_new";
      "model.compute_log_likelihood()" ]
    [ execute_result 7
        [ "-140.83017563045192" ] ].

Definition tips_cell_17 : cell :=
  markdown_cell
    [ "### 3. I would like to use external TensorFlow tensors and pass them to a GPflow model" ].

Definition tips_cell_18 : cell :=
  markdown_cell
    [ "You can pass tensorflow tensors for any non-trainable parameters of the gpflow objects like DataHolders." ].

Definition tips_cell_19 : cell :=
  code_cell (Some 8)
    [ "np.random.seed(1)";
      "kernel = gpflow.kernels.RBF(1)";
      "likelihood = gpflow.likelihoods.Gaussian()";
      EmptyString;
      "x_tensor = tf.random_normal((100, 1), dtype=settings.float_type)";
      "y_tensor = tf.random_normal((100, 1), dtype=settings.float_type)";
      "z = np.random.randn(10, 1)";
      EmptyString;
      "model = gpflow.models.SVGP(x_tensor, y_tensor, kern=kernel, likelihood=likelihood, Z=z)";
      "model.compute_log_likelihood()" ]
    [ execute_result 8
        [ "-196.46001677717464" ] ].

Definition tips_cell_20 : cell :=
  markdown_cell
    [ "You can also use TensorFlow variables for trainable objects:" ].

Definition tips_cell_21 : cell :=
  code_cell (Some 9)
    [ "z = tf.Variable(np.random.randn(10, 1))";
      "model = gpflow.models.SVGP(x_tensor, y_tensor, kern=kernel, likelihood=likelihood, Z=z)" ]
    [].

Definition tips_cell_22 : cell :=
  markdown_cell
    [ "But you have to initialize them manually, before iteracting with a model:" ].

Definition tips_cell_23 : cell :=
  code_cell (Some 10)
    [ "session = gpflow.get_default_session()";
      "session.run(z.initializer)";
      "model.compute_log_likelihood()" ]
    [ execute_result 10
        [ "-193.12198293763578" ] ].

Definition tips_cell_24 : cell :=
  markdown_cell
    [ "### 4. I would like to share parameters between GPflow objects" ].

Definition tips_cell_25 : cell :=
  markdown_cell
    [ "Sometimes we want to impose a hard-coded structure to the model.";
      EmptyString;
      "For example, we have a multi-output model where some output dimensions share the same kernel and others don't.";
      EmptyString;
      "Unfortunately we cannot do this after the kernel object is compiled. We have to do it at build time and then manually compile the object." ].

Definition tips_cell_26 : cell :=
  code_cell (Some 11)
    [ "with gpflow.decors.defer_build():";
      "    kernels = [gpflow.kernels.RBF(1) for _ in range(3)]";
      "    mo_kernels = mk.SeparateMixedMok(kernels, W=np.random.randn(3, 4))";
      "    mo_kernels.kernels[0].lengthscales = mo_kernels.kernels[1].lengthscales";
      "    mo_kernels.compile()";
      EmptyString;
      "assert mo_kernels.kernels[0].lengthscales is mo_kernels.kernels[1].lengthscales" ]
    [].

Definition tips_cell_27 : cell :=
  markdown_cell
    [ "### 5. Optimizing again my model slows down the computation time" ].

Definition tips_cell_28 : cell :=
  markdown_cell
    [ "Bad practice:" ].

Definition tips_cell_29 : cell :=
  code_cell (Some 12)
    [ "x = np.random.randn(100, 1)";
      "y = np.random.randn(100, 1)";
      "model = gpflow.models.GPR(x, y, kernel)";
      EmptyString;
      "optimizer = gpflow.training.AdamOptimizer()";
      EmptyString;
      "optimizer.minimize(model, maxiter=2)";
      EmptyString;
      "# Do something with the model";
      EmptyString;
      "optimizer.minimize(model, maxiter=2)" ]
    [].

Definition tips_cell_30 : cell :=
  markdown_cell
    [ "The `minimize()` call creates a bunch of optimization tensors. Calling `minimize()` again causes the same issue pointed in question (1)." ].

Definition tips_cell_31 : cell :=
  markdown_cell
    [ "The correct way of doing it without polluting your graph:" ].

Definition tips_cell_32 : cell :=
  code_cell (Some 13)
    [ "kernel = gpflow.kernels.RBF(1)";
      "x = np.random.randn(100, 1)";
      "y = np.random.randn(100, 1)";
      "model = gpflow.models.GPR(x, y, kernel)";
      EmptyString;
      "optimizer = gpflow.training.AdamOptimizer()";
      "optimizer_tensor = optimizer.make_optimize_tensor(model)";
      "session = gpflow.get_default_session()";
      "for _ in range(2):";
      "    session.run(optimizer_tensor)" ]
    [].

Definition tips_cell_33 : cell :=
  markdown_cell
    [ "Don't forget to **anchor** your model to the session after optimisation steps. Then you can continue working with your model.<br/>" ].

Definition tips_cell_34 : cell :=
  code_cell (Some 14)
    [ "model.anchor(session)" ]
    [].

Definition tips_cell_35 : cell :=
  markdown_cell
    [ "Now, if you need to optimize it again, you can reuse the same optimizer tensor." ].

Definition tips_cell_36 : cell :=
  code_cell (Some 15)
    [ "for _ in range(2):";
      "    session.run(optimizer_tensor)";
      EmptyString;
      "model.anchor(session)" ]
    [].

Definition tips_cell_37 : cell :=
  markdown_cell
    [ "### 6. When I try to read parameter values, I'm getting stale values." ].

Definition tips_cell_38 : cell :=
  code_cell (Some 16)
    [ "np.random.seed(1)";
      "x = np.random.randn(100, 1)";
      "y = np.random.randn(100, 1)";
      EmptyString;
      "kernel = gpflow.kernels.RBF(1)";
      "model = gpflow.models.GPR(x, y, kernel)";
      "optimizer = gpflow.training.AdamOptimizer()";
      "optimizer_tensor = optimizer.make_optimize_tensor(model)" ]
    [].

Definition tips_cell_39 : cell :=
  markdown_cell
    [ "The initial value before optimisation is" ].

Definition tips_cell_40 : cell :=
  code_cell (Some 17)
    [ "model.kern.lengthscales.value" ]
    [ execute_result 17
        [ "array(1.)" ] ].

Definition tips_cell_41 : cell :=
  markdown_cell
    [ "Let's call one step of the optimization and check the new value of the parameter" ].

Definition tips_cell_42 : cell :=
  code_cell (Some 18)
    [ "gpflow.get_default_session().run(optimizer_tensor)";
      "model.kern.lengthscales.value" ]
    [ execute_result 18
        [ "array(1.)" ] ].

Definition tips_cell_43 : cell :=
  markdown_cell
    [ "After optimization you would expect that the parameters were updated, but they weren't. The trick is that the `value` property returns a cached numpy value of a parameter." ].

Definition tips_cell_44 : cell :=
  markdown_cell
    [ "You can get the value of the optimized parameter via the `read_value()` method, specifying the correct `session`." ].

Definition tips_cell_45 : cell :=
  code_cell (Some 19)
    [ "model.kern.lengthscales.read_value(session)" ]
    [ execute_result 19
        [ "1.0006322362558255" ] ].

Definition tips_cell_46 : cell :=
  markdown_cell
    [ "Or you can `anchor(session)` your model to the session after the optimisation step. The `anchor()` updates parameters' cache. **The `anchor(session)` is significantly more time consuming than `read_value(session)`, do not call it too often without necessity.**" ].

Definition tips_cell_47 : cell :=
  code_cell (Some 20)
    [ "model.anchor(session)";
      "model.kern.lengthscales.value" ]
    [ execute_result 20
        [ "array(1.00063224)" ] ].

Definition tips_cell_48 : cell :=
  markdown_cell
    [ "### 7. How can I save/load a GPflow model?" ].

Definition tips_cell_49 : cell :=
  code_cell (Some 21)
    [ "kernel = gpflow.kernels.RBF(1)";
      "x = np.random.randn(100, 1)";
      "y = np.random.randn(100, 1)";
      "model = gpflow.models.GPR(x, y, kernel)";
      EmptyString;
      "filename = " +:+ dq +:+ "/tmp/gpr.gpflow" +:+ dq;
      "path = Path(filename)";
      "if path.exists():";
      "    path.unlink()";
      "saver = gpflow.saver.Saver()";
      "saver.save(filename, model)" ]
    [].

Definition tips_cell_50 : cell :=
  markdown_cell
    [ "You can load the model back into different graph:" ].

Definition tips_cell_51 : cell :=
  code_cell (Some 22)
    [ "with tf.Graph().as_default() as graph, tf.Session().as_default():";
      "    model_copy = saver.load(filename)" ]
    [].

Definition tips_cell_52 : cell :=
  markdown_cell
    [ "Or you can load the model into the same session:" ].

Definition tips_cell_53 : cell :=
  code_cell (Some 23)
    [ "ctx_for_loading = gpflow.saver.SaverContext(autocompile=False)";
      "model_copy = saver.load(filename, context=ctx_for_loading)";
      "model_copy.clear()";
      "model_copy.compile()" ]
    [].

Definition tips_cell_54 : cell :=
  markdown_cell
    [ "The difference between the former and the latter approach is in tensorflow name scopes which are used for naming variables. The former approach replicates the instance of the tensorflow objects (which already exist in the original graph), so we need to load it in a new graph.";
      "The latter uses different name scopes for the variables so we can dump the model in the same graph." ].

(** The notebook on how GPflow relates to TensorFlow *)
Definition tips : notebook :=
  {| cells :=
       [ tips_cell_00; tips_cell_01; tips_cell_02; tips_cell_03;
         tips_cell_04; tips_cell_05; tips_cell_06; tips_cell_07;
         tips_cell_08; tips_cell_09; tips_cell_10; tips_cell_11;
         tips_cell_12; tips_cell_13; tips_cell_14; tips_cell_15;
         tips_cell_16; tips_cell_17; tips_cell_18; tips_cell_19;
         tips_cell_20; tips_cell_21; tips_cell_22; tips_cell_23;
         tips_cell_24; tips_cell_25; tips_cell_26; tips_cell_27;
         tips_cell_28; tips_cell_29; tips_cell_30; tips_cell_31;
         tips_cell_32; tips_cell_33; tips_cell_34; tips_cell_35;
         tips_cell_36; tips_cell_37; tips_cell_38; tips_cell_39;
         tips_cell_40; tips_cell_41; tips_cell_42; tips_cell_43;
         tips_cell_44; tips_cell_45; tips_cell_46; tips_cell_47;
         tips_cell_48; tips_cell_49; tips_cell_50; tips_cell_51;
         tips_cell_52; tips_cell_53; tips_cell_54 ];
     kernelspec_language := "python";
     kernelspec_name := "python3";
     language_version := "3.6.7";
     nbformat := 4;
     nbformat_minor := 2 |}.

(** The source files of the repository. *)
Definition repository : list notebook := [monitoring; tips].

(** *** Reading the code of a notebook *)

Definition is_code (c : cell) : bool :=
  match kind c with code => true | markdown => false end.

Definition code_cells (nb : notebook) : list cell := filter is_code (cells nb).

(** All lines of Python of a notebook, in order. *)
Definition code_lines (nb : notebook) : list string :=
  concat (map source (code_cells nb)).



(** [sub] occurs somewhere in [s]. *)
Fixpoint contains (sub s : string) : bool :=
  String.prefix sub s
  || match s with
     | EmptyString => false
     | String _ s' => contains sub s'
     end.

(** Indentation removed. *)
Fixpoint lstrip (s : string) : string :=
  match s with
  | String " " s' => lstrip s'
  | _ => s
  end.

(** The statement on line [s] opens with keyword [kw]. *)
Definition opens_with (kw s : string) : bool := String.prefix kw (lstrip s).

Definition mentions_any (subs : list string) (s : string) : bool :=
  existsb (fun sub => contains sub s) subs.

(** [class] statements, [def] statements and [assert] statements. *)
Definition class_defs (nb : notebook) : list string :=
  filter (opens_with "class ") (code_lines nb).

Definition function_defs (nb : notebook) : list string :=
  filter (opens_with "def ") (code_lines nb).

Definition assert_stmts (nb : notebook) : list string :=
  filter (opens_with "assert ") (code_lines nb).

Definition import_stmts (nb : notebook) : list string :=
  filter (fun s => opens_with "import " s || opens_with "from " s) (code_lines nb).

(** *** Tokens, names and calls

    The code is read a line at a time.  String literals (in single or in
    double quotes, without escapes, as the notebooks write them) and
    comments are set apart, so that a word inside them is not taken for
    code. *)

Inductive token :=
| Name (s : string)           (* an identifier, a keyword or a number *)
| Str (s : string)            (* a string literal, without its quotes *)
| Sym (c : ascii).            (* any other character but the blank *)

Definition is_digit (c : ascii) : bool :=
  let n := nat_of_ascii c in Nat.leb 48 n && Nat.leb n 57.

Definition is_upper (c : ascii) : bool :=
  let n := nat_of_ascii c in Nat.leb 65 n && Nat.leb n 90.

Definition is_lower (c : ascii) : bool :=
  let n := nat_of_ascii c in Nat.leb 97 n && Nat.leb n 122.

Definition is_name_char (c : ascii) : bool :=
  is_digit c || is_upper c || is_lower c || Ascii.eqb c "_".

Definition is_quote (c : ascii) : bool :=
  Ascii.eqb c "'" || Ascii.eqb c "034".

Definition snoc (s : string) (c : ascii) : string := s +:+ String c EmptyString.

Definition flush (cur : string) : list token :=
  match cur with
  | EmptyString => []
  | _ => [Name cur]
  end.

Inductive mode :=
| Code (cur : string)                (* in code, [cur] the name being read *)
| Quoted (q : ascii) (acc : string). (* in a literal opened by [q] *)

Fixpoint lex (m : mode) (s : string) : list token :=
  match s with
  | EmptyString =>
      match m with
      | Code cur => flush cur
      | Quoted _ acc => [Str acc]
      end
  | String c s' =>
      match m with
      | Quoted q acc =>
          if Ascii.eqb c q then Str acc :: lex (Code EmptyString) s'
          else lex (Quoted q (snoc acc c)) s'
      | Code cur =>
          if is_name_char c then lex (Code (snoc cur c)) s'
          else if is_quote c then (flush cur ++ lex (Quoted c EmptyString) s')%list
          else if Ascii.eqb c "#" then flush cur
          else if Ascii.eqb c " " then (flush cur ++ lex (Code EmptyString) s')%list
          else (flush cur ++ Sym c :: lex (Code EmptyString) s')%list
      end
  end.

Definition tokens (line : string) : list token := lex (Code EmptyString) line.

Definition mem (x : string) (l : list string) : bool := existsb (String.eqb x) l.

(** The reserved words of Python 3. *)
Definition python_keywords : list string :=
  [ "False"; "None"; "True"; "and"; "as"; "assert"; "async"; "await"; "break";
    "class"; "continue"; "def"; "del"; "elif"; "else"; "except"; "finally";
    "for"; "from"; "global"; "if"; "import"; "in"; "is"; "lambda"; "nonlocal";
    "not"; "or"; "pass"; "raise"; "return"; "try"; "while"; "with"; "yield" ].

Definition is_keyword (s : string) : bool := mem s python_keywords.


Definition starts_with_digit (s : string) : bool :=
  match s with
  | String c _ => is_digit c
  | EmptyString => false
  end.

(** A dotted name that has been read, with the tokens that follow it.
    Keywords and numbers are not names. *)
Definition emit (cur : string) (rest : list token) : list (string * list token) :=
  if String.eqb cur EmptyString || String.eqb cur "." || is_keyword cur
     || starts_with_digit cur
  then [] else [(cur, rest)].

(** The dotted names of a line, [a.b.c], left to right.  A name that opens
    with a dot, as [.with_name], is an attribute of the value of the
    expression before it. *)
Fixpoint dotted_names (cur : string) (dot : bool) (ts : list token)
  : list (string * list token) :=
  match ts with
  | [] => emit cur []
  | Name n :: ts' =>
      if dot then dotted_names (cur +:+ n) false ts'
      else (emit cur ts ++ dotted_names n false ts')%list
  | Sym "." :: ts' =>
      if dot then dotted_names cur true ts'
      else dotted_names (cur +:+ ".") true ts'
  | _ :: ts' => (emit cur ts ++ dotted_names EmptyString false ts')%list
  end.

(** A [def] or [class] line names what it defines; that name is not a
    use. *)
Definition defined_name (ts : list token) : option string :=
  match ts with
  | Name "def" :: Name f :: _ => Some f
  | Name "class" :: Name c :: _ => Some c
  | _ => None
  end.

Definition after_header (ts : list token) : list token :=
  match ts with
  | Name "def" :: _ :: rest => rest
  | Name "class" :: _ :: rest => rest
  | _ => ts
  end.

Definition names_of (ts : list token) : list (string * list token) :=
  dotted_names EmptyString false (after_header ts).





(** First occurrences, in order. *)
Fixpoint dedup (l : list string) : list string :=
  match l with
  | [] => []
  | x :: l' => x :: filter (fun y => negb (String.eqb x y)) (dedup l')
  end.

Definition code_tokens (nb : notebook) : list (list token) :=
  map tokens (code_lines nb).





(** [a] of [a.b.c]; empty for a name that opens with a dot. *)
Fixpoint root (s : string) : string :=
  match s with
  | EmptyString => EmptyString
  | String "." _ => EmptyString
  | String c s' => String c (root s')
  end.

(** [c] of [a.b.c]. *)
Fixpoint last_component (acc : string) (s : string) : string :=
  match s with
  | EmptyString => acc
  | String "." s' => last_component EmptyString s'
  | String c s' => last_component (snoc acc c) s'
  end.

(** Names in the style of a class: the last component opens with a
    capital. *)
Definition capitalised (s : string) : bool :=
  match last_component EmptyString s with
  | String c _ => is_upper c
  | EmptyString => false
  end.

Definition capitalised_names (nb : notebook) : list string :=
  dedup (filter capitalised
           (concat (map (fun ts => map fst (names_of ts)) (code_tokens nb)))).

(** *** Imports and bindings *)

Fixpoint name_after (kw : string) (ts : list token) : option string :=
  match ts with
  | Name k :: ts' =>
      match ts' with
      | Name v :: _ => if String.eqb k kw then Some v else name_after kw ts'
      | _ => name_after kw ts'
      end
  | _ :: ts' => name_after kw ts'
  | [] => None
  end.

Definition first_root (ts : list token) : option string :=
  match names_of ts with
  | (n, _) :: _ => Some (root n)
  | [] => None
  end.

(** What an import statement binds, with the top-level module it comes
    from: [import a.b] binds [a]; [import a.b as c] binds [c];
    [from a.b import c] binds [c]. *)
Definition import_binding (ts : list token) : option (string * string) :=
  match ts with
  | Name "import" :: rest =>
      match first_root rest with
      | Some m =>
          match name_after "as" rest with
          | Some v => Some (v, m)
          | None => Some (m, m)
          end
      | None => None
      end
  | Name "from" :: rest =>
      match first_root rest, name_after "import" rest with
      | Some m, Some v =>
          match name_after "as" rest with
          | Some w => Some (w, m)
          | None => Some (v, m)
          end
      | _, _ => None
      end
  | _ => None
  end.

Fixpoint somes {A} (l : list (option A)) : list A :=
  match l with
  | [] => []
  | Some a :: l' => a :: somes l'
  | None :: l' => somes l'
  end.

Definition import_bindings (nb : notebook) : list (string * string) :=
  somes (map import_binding (code_tokens nb)).

(** A name is reached through an import when its root is bound by one. *)
Definition imported (nb : notebook) (n : string) : bool :=
  mem (root n) (map fst (import_bindings nb)).





(** The classes and functions a notebook defines. *)
Definition own_definitions (nb : notebook) : list string :=
  somes (map defined_name (code_tokens nb)).













End Nb.

(** ** The tips notebook: sharing parameters, saving a model *)

Module Tips.

Open Scope string_scope.

(** *** A store of Python objects

    Objects live in a store and are named by their location; an
    attribute holds a reference, so two attributes may name one object. *)

Definition loc := nat.

Inductive value :=
| Ref (l : loc)                (* a reference to an object *)
| RefList (ls : list loc)      (* a list of objects *)
| Int (n : Z).

Record object := Obj {
  class : string;
  attrs : gmap string value;
  compiled : bool
}.

Record store := Store {
  objs : gmap loc object;
  next : loc;                  (* the next location handed out *)
  autobuild : bool             (* false inside [defer_build()] *)
}.

(** Statements run on the store and may raise. *)
Definition M (A : Type) : Type := store -> option (A * store).

#[global] Instance M_ret : MRet M := fun A a s => Some (a, s).

#[global] Instance M_bind : MBind M := fun A B k m s =>
  match m s with
  | Some (a, s') => k a s'
  | None => None
  end.

Definition raise {A} : M A := fun _ => None.

(** A new object; built at once unless building is deferred. *)
Definition new (cls : string) (fields : list (string * value)) : M loc :=
  fun s =>
    let l := next s in
    let o := Obj cls (list_to_map fields) (autobuild s) in
    Some (l, Store (<[l := o]> (objs s)) (S l) (autobuild s)).

(** [o.a]: [AttributeError] when the attribute is missing. *)
Definition getattr (v : value) (a : string) : M value :=
  fun s =>
    match v with
    | Ref l =>
        match objs s !! l with
        | Some o =>
            match attrs o !! a with
            | Some w => Some (w, s)
            | None => None
            end
        | None => None
        end
    | _ => None
    end.

(** Modelled from the spec: [o.a = w] on an object of the library, whose
    attribute assignment is not among the source files.  The attribute is
    bound to the object on the right-hand side.  The notebook says of
    parameter sharing that "we cannot do this after the kernel object is
    compiled": binding a parameter on a compiled object raises. *)
Definition setattr (v : value) (a : string) (w : value) : M unit :=
  fun s =>
    match v with
    | Ref l =>
        match objs s !! l with
        | Some o =>
            if compiled o then None
            else
              let o' := Obj (class o) (<[a := w]> (attrs o)) (compiled o) in
              Some (tt, Store (<[l := o']> (objs s)) (next s) (autobuild s))
        | None => None
        end
    | _ => None
    end.

(** [v[i]] for a literal index [i >= 0]: [IndexError] out of range. *)
Definition getitem (v : value) (i : nat) : M value :=
  fun s =>
    match v with
    | RefList ls =>
        match ls !! i with
        | Some l => Some (Ref l, s)
        | None => None
        end
    | _ => None
    end.

(** [a is b] *)
Definition is_ (a b : value) : bool :=
  match a, b with
  | Ref l1, Ref l2 => Nat.eqb l1 l2
  | _, _ => false
  end.

(** Modelled from the spec: [with gpflow.decors.defer_build(): body], a
    context manager of the library, which is not among the source files.
    Objects created in the body are not built at once (the notebook does
    the sharing "at build time" and then compiles by hand); the mode in
    force before the block is in force again after it. *)
Definition defer_build {A} (body : M A) : M A :=
  fun s =>
    match body (Store (objs s) (next s) false) with
    | Some (a, s') => Some (a, Store (objs s') (next s') (autobuild s))
    | None => None
    end.

(** Modelled from the spec: [gpflow.kernels.RBF], a kernel object of the
    library, which is not among the source files.  It owns a parameter
    object under the attribute [lengthscales], the attribute the
    notebook reads and rebinds. *)
Definition RBF (input_dim : Z) : M value :=
  p ← new "Parameter" [];
  k ← new "RBF" [("input_dim", Int input_dim); ("lengthscales", Ref p)];
  mret (Ref k).

(** [[gpflow.kernels.RBF(1) for _ in range(n)]] *)
Fixpoint RBF_list (n : nat) : M (list loc) :=
  match n with
  | O => mret []
  | S n' =>
      k ← RBF 1;
      ks ← RBF_list n';
      match k with
      | Ref l => mret (l :: ks)
      | _ => raise
      end
  end.

(** Modelled from the spec: [mk.SeparateMixedMok(kernels, W=...)], a
    multi-output kernel of the library, which is not among the source
    files.  It keeps the list it is given under [kernels] and the mixing
    matrix as a parameter under [W]. *)
Definition SeparateMixedMok (kernels : list loc) : M value :=
  w ← new "Parameter" [];
  mo ← new "SeparateMixedMok" [("kernels", RefList kernels); ("W", Ref w)];
  mret (Ref mo).

Section SharingCell.

(** Modelled from the spec: [compile()], a method of the library, which
    is not among the source files.  It builds the tensors of an object;
    the notebook calls this "build and compile". *)
Variable compile : value -> M unit.

(** [mo_kernels.kernels[i].lengthscales] *)
Definition kernel_lengthscales (mo_kernels : value) (i : nat) : M value :=
  ks ← getattr mo_kernels "kernels";
  k ← getitem ks i;
  getattr k "lengthscales".

(** The parameter-sharing cell.  The result is the value of the
    asserted expression: [false] is an [AssertionError]. *)
Definition sharing_cell : M bool :=
  mo_kernels ←
    defer_build (
      kernels ← RBF_list 3;
      mo_kernels ← SeparateMixedMok kernels;
      (* mo_kernels.kernels[0].lengthscales = mo_kernels.kernels[1].lengthscales *)
      rhs ← kernel_lengthscales mo_kernels 1;
      ks ← getattr mo_kernels "kernels";
      k0 ← getitem ks 0;
      setattr k0 "lengthscales" rhs;;
      compile mo_kernels;;
      mret mo_kernels);
  a ← kernel_lengthscales mo_kernels 0;
  b ← kernel_lengthscales mo_kernels 1;
  mret (is_ a b).

(** What the cell relies on: called on an object of the store, [compile]
    returns, and it rebinds no attribute of an object that exists when it
    is called. *)
Definition keeps_bindings : Prop :=
  forall l s,
    is_Some (objs s !! l) ->
    exists s',
      compile (Ref l) s = Some (tt, s') /\
      forall l' o, objs s !! l' = Some o ->
        exists o', objs s' !! l' = Some o' /\ attrs o' = attrs o.

End SharingCell.


(** One such [compile]: every object of the store is marked as built. *)
Definition compile_all (v : value) : M unit :=
  fun s =>
    Some (tt, Store ((fun o => Obj (class o) (attrs o) true) <$> objs s)
                    (next s) (autobuild s)).

(** *** Files *)

Section SaveCell.

Context {Model : Type}.

(** What a path holds: a model in the library's [.gpflow] format, or
    anything else. *)
Inductive content :=
| gpflow_file (m : Model)
| other_file (bytes : string).

(** The world a cell acts on: the files on disk and the cell output. *)
Record world := World {
  disk : gmap string content;
  printed : list string
}.

(** [Path(p).exists()] *)
Definition path_exists (p : string) (w : world) : bool :=
  match disk w !! p with Some _ => true | None => false end.

(** [Path(p).unlink()]: [FileNotFoundError] when there is no such file. *)
Definition path_unlink (p : string) (w : world) : option world :=
  match disk w !! p with
  | Some _ => Some (World (delete p (disk w)) (printed w))
  | None => None
  end.

(** Modelled from the spec: [gpflow.saver.Saver().save], the library's
    persistence call, which is not among the source files. *)
Variable Saver_save : string -> Model -> world -> option world.

(** Saving to a path that holds no file creates the file, in the
    library's format, and touches nothing else.  What saving over an
    existing file does is left open; the cell never does it. *)
Definition saves_to_fresh_path : Prop :=
  forall p m w,
    disk w !! p = None ->
    Saver_save p m w = Some (World (<[p := gpflow_file m]> (disk w)) (printed w)).

Definition filename : string := "/tmp/gpr.gpflow".

(** The save cell, from [filename = ...] on; [model] is the GPR model
    built by the first four lines of the cell. *)
Definition save_cell (model : Model) (w : world) : option world :=
  let path := filename in
  match (if path_exists path w then path_unlink path w else Some w) with
  | Some w1 => Saver_save filename model w1
  | None => None
  end.

End SaveCell.

Arguments content : clear implicits.
Arguments world : clear implicits.

(** One such [save]: it writes the file whether or not one is there. *)
Definition save_overwriting {Model} (p : string) (m : Model) (w : world Model)
  : option (world Model) :=
  Some (World (<[p := gpflow_file m]> (disk w)) (printed w)).

(** Another such [save], as strict as a saver can be: it raises when a file
    is already there. *)
Definition save_refusing {Model} (p : string) (m : Model) (w : world Model)
  : option (world Model) :=
  match disk w !! p with
  | Some _ => None
  | None => Some (World (<[p := gpflow_file m]> (disk w)) (printed w))
  end.

Section LoadCell.

Context {Model : Type}.

(** Modelled from the spec: [saver.load], the library's call that reads a
    model back, which is not among the source files. *)
Variable Saver_load : string -> world Model -> option Model.

(** Loading a path that holds a model in the library's format returns
    that model.  What loading anything else does is left open. *)
Definition loads_saved_file : Prop :=
  forall p m w,
    disk w !! p = Some (gpflow_file m) -> Saver_load p w = Some m.

(** The first load cell: [model_copy = saver.load(filename)], run under a
    graph and a session of its own.  The result is [model_copy]. *)
Definition load_cell (w : world Model) : option Model :=
  Saver_load filename w.

End LoadCell.

(** One such [load]. *)
Definition load_gpflow_file {Model} (p : string) (w : world Model) : option Model :=
  match disk w !! p with
  | Some (gpflow_file m) => Some m
  | _ => None
  end.

(** *** The default graph

    The first code cell after the imports builds a kernel in a loop.  The default
    graph is the list of its nodes in the order they were created. *)

Section DefaultGraph.

Context {Node : Type}.

(** Modelled from the spec: [gpflow.kernels.RBF(...)] built at once, which
    the notebook comments as "a gpflow object with tf.Variables inside":
    the nodes it adds to the graph [g]. *)
Variable RBF_nodes : list Node -> list Node.

(** Modelled from the spec: [kernel.K(x)] for an [x] of [n] rows, which the
    notebook comments as "This is a tensor!": the nodes it adds. *)
Variable K_nodes : list Node -> Z -> list Node.

(** Both calls create at least one node. *)
Definition creates_nodes : Prop :=
  (forall g, RBF_nodes g <> []) /\ (forall g n, K_nodes g n <> []).

(** [range(a, b)] *)
Definition range_from (a b : Z) : list Z := seqZ a (b - a).

(** [for n in ns: body] on the default graph. *)
Definition for_each (ns : list Z) (body : Z -> list Node -> list Node)
    (g : list Node) : list Node :=
  fold_left (fun g n => body n g) ns g.

(** The three statements of the loop body:
    [kernel = gpflow.kernels.RBF(input_dim=1)], [x = np.random.randn(n, 1)],
    [kxx = kernel.K(x)]. *)
Definition build_kernel_matrix (n : Z) (g : list Node) : list Node :=
  let g1 := (g ++ RBF_nodes g)%list in
  (g1 ++ K_nodes g1 n)%list.

(** The first loop. *)
Definition growing_loop (ns : list Z) : list Node -> list Node :=
  for_each ns build_kernel_matrix.

(** The cell as written: [for n in range(2, 4)]. *)
Definition growing_cell : list Node -> list Node := growing_loop (range_from 2 4).

End DefaultGraph.

End Tips.

(** * Properties *)

(** ** The minibatch loop of [CustomTensorBoardTask.run] *)

Section Batching.

Import Monitoring.

Context {Row : Type}.
Implicit Types xs : list Row.

(** The loop bound is the ceiling of [n / 100]. *)
Lemma n_batches_bounds (n : Z) :
  100 * (n_batches n - 1) < n <= 100 * n_batches n.
Proof.
  unfold n_batches, Py.floordiv, minibatch_size.
  pose proof (Z.div_mod (- n) 100 ltac:(lia)) as Hdm.
  pose proof (Z.mod_pos_bound (- n) 100 ltac:(lia)) as Hr.
  lia.
Qed.

Lemma n_batches_nonneg (n : Z) : 0 <= n -> 0 <= n_batches n.
Proof. pose proof (n_batches_bounds n). lia. Qed.

(** A slice with bounds inside [0..] is a [take] of a [drop]. *)
Lemma minibatch_take_drop xs (k : nat) :
  minibatch xs (Z.of_nat k) = take 100 (drop (100 * k) xs).
Proof.
  unfold minibatch, Py.slice, Py.clip, Py.len, minibatch_size.
  destruct (Z.ltb_spec (Z.of_nat k * 100) 0) as [?|_]; [lia|].
  destruct (Z.ltb_spec ((Z.of_nat k + 1) * 100) 0) as [?|_]; [lia|].
  set (n := length xs).
  destruct (decide (100 * k <= n)%nat) as [Hin|Hout].
  - assert ((Z.of_nat k * 100) `min` Z.of_nat n = Z.of_nat (100 * k)) as -> by lia.
    rewrite Nat2Z.id.
    destruct (decide (100 * k + 100 <= n)%nat) as [Hfull|Hlast].
    + f_equal. lia.
    + rewrite !take_ge; [done | |]; rewrite length_drop; fold n; lia.
  - assert ((Z.of_nat k * 100) `min` Z.of_nat n = Z.of_nat n) as -> by lia.
    rewrite Nat2Z.id, !drop_ge by (fold n; lia). by rewrite !take_nil.
Qed.

(** The first [k] slices, joined, are the first [100 * k] rows. *)
Lemma concat_first_minibatches xs (k : nat) :
  concat (map (minibatch xs) (seqZ 0 (Z.of_nat k))) = take (100 * k) xs.
Proof.
  induction k as [|k IH].
  - done.
  - rewrite seqZ_S, map_app, concat_app, IH. simpl.
    rewrite app_nil_r, Z.add_0_l, minibatch_take_drop, take_take_drop.
    f_equal. lia.
Qed.

(** The slices partition the rows: joined in order they give back [xs]. *)
Lemma concat_minibatches xs : concat (minibatches xs) = xs.
Proof.
  unfold minibatches, Py.range.
  pose proof (n_batches_bounds (Py.len xs)) as Hb.
  pose proof (n_batches_nonneg (Py.len xs)) as Hn.
  unfold Py.len in *.
  rewrite <- (Z2Nat.id (n_batches _)) by lia.
  rewrite concat_first_minibatches. apply take_ge. lia.
Qed.

(** Every slice of the loop is non-empty and holds at most 100 rows. *)
Lemma minibatch_size_bounds xs (mb : Z) :
  0 <= mb < n_batches (Py.len xs) ->
  (0 < length (minibatch xs mb) <= 100)%nat.
Proof.
  intros Hmb. pose proof (n_batches_bounds (Py.len xs)) as Hb.
  unfold Py.len in *.
  rewrite <- (Z2Nat.id mb) by lia.
  rewrite minibatch_take_drop, length_take, length_drop. lia.
Qed.

Lemma minibatches_sizes xs :
  Forall (fun b => (0 < length b <= 100)%nat) (minibatches xs).
Proof.
  apply Forall_forall. intros b Hb. apply list_elem_of_In in Hb.
  unfold minibatches, Py.range in Hb. apply in_map_iff in Hb as (mb & <- & Hmb).
  apply list_elem_of_In, elem_of_seqZ in Hmb.
  apply minibatch_size_bounds. lia.
Qed.

End Batching.

Section RunProperties.

Import Monitoring.

Context {Row Pred F Model : Type}.
Variable predict_y : Model -> list Row -> list Pred * list Pred.
Variable rmse : list Pred -> list Pred -> option F.
Variable zero : F.

Implicit Types (self : task (Row := Row) (Pred := Pred) (Model := Model)).
Implicit Types (g : globals (Row := Row) (Pred := Pred)).

(** The comprehension predicts each slice of the partition in turn. *)
Lemma batch_preds_minibatches self g :
  batch_preds predict_y self g
  = map (fun b => fst (predict_y (model self) b)) (minibatches (Xt g)).
Proof. unfold batch_preds, minibatches. by rewrite map_map. Qed.

Lemma length_minibatches (xs : list Row) :
  length (minibatches xs) = Z.to_nat (n_batches (Py.len xs)).
Proof. unfold minibatches, Py.range. by rewrite length_map, length_seqZ. Qed.

(** On a non-empty test array [np.vstack] gets at least one block. *)
Lemma preds_returns self g :
  Xt g <> [] ->
  preds predict_y self g = Some (concat (batch_preds predict_y self g)).
Proof.
  intros Hne. unfold preds, vstack.
  destruct (batch_preds predict_y self g) as [|b bs] eqn:Hbp; [|done].
  exfalso. apply (f_equal length) in Hbp.
  rewrite batch_preds_minibatches, length_map, length_minibatches in Hbp.
  pose proof (n_batches_bounds (Py.len (Xt g))) as Hb.
  unfold Py.len in *. destruct (Xt g); [done|]. simpl in *. lia.
Qed.

(** On an empty test array [run] raises in [np.vstack]. *)
Lemma run_empty self g : Xt g = [] -> run predict_y rmse zero self g = None.
Proof. intros He. unfold run, preds, batch_preds. by rewrite He. Qed.

(** On a non-empty test array [run] gets as far as the test error, and
    feeds the summary when that is computed. *)
Lemma run_returns self g :
  Xt g <> [] ->
  run predict_y rmse zero self g
  = match rmse (Yt g) (concat (batch_preds predict_y self g)) with
    | Some test_err => Some [(full_test_err, test_err); (full_test_nlpp, zero)]
    | None => None
    end.
Proof. intros Hne. unfold run. by rewrite preds_returns. Qed.

Lemma run_feed_nlpp self g fd :
  run predict_y rmse zero self g = Some fd ->
  feed_get fd full_test_nlpp = Some zero.
Proof.
  unfold run. destruct (preds predict_y self g) as [ps|]; [|done].
  destruct (rmse (Yt g) ps); [|done].
  intros [= <-]. reflexivity.
Qed.

(** A row-preserving map over blocks keeps the number of rows. *)
Lemma length_concat_map_rows (f : list Row -> list Pred) (bs : list (list Row)) :
  (forall b, length (f b) = length b) ->
  length (concat (map f bs)) = length (concat bs).
Proof.
  intros Hf. induction bs as [|b bs IH]; simpl; [done|].
  by rewrite !length_app, Hf, IH.
Qed.

(** C2: for a non-empty test array the loop bound
    [-(-len(Xt) // 100)] is the ceiling of [len(Xt) / 100], the slices
    taken by the loop are non-empty and partition [Xt], and the stacked
    predictions are
    the predictions of these slices in order, so that they hold one row
    for each row of [Xt] (given that [predict_y] returns one row of mean
    per input row). *)
Theorem minibatch_predictions_cover_Xt self g :
  Xt g <> [] ->
  (forall b, length (fst (predict_y (model self) b)) = length b) ->
  let n := Py.len (Xt g) in
  100 * (n_batches n - 1) < n <= 100 * n_batches n /\
  length (minibatches (Xt g)) = Z.to_nat (n_batches n) /\
  Forall (fun b => (0 < length b <= 100)%nat) (minibatches (Xt g)) /\
  concat (minibatches (Xt g)) = Xt g /\
  exists ps,
    preds predict_y self g = Some ps /\
    ps = concat (map (fun b => fst (predict_y (model self) b)) (minibatches (Xt g))) /\
    length ps = length (Xt g).
Proof.
  intros Hne Hrows n. split; [apply n_batches_bounds|].
  split; [apply length_minibatches|].
  split; [apply minibatches_sizes|].
  split; [apply concat_minibatches|].
  exists (concat (batch_preds predict_y self g)).
  split; [by apply preds_returns|].
  rewrite batch_preds_minibatches. split; [done|].
  rewrite length_concat_map_rows by done.
  by rewrite concat_minibatches.
Qed.

(** C8: whenever [run] gets to [_eval_summary], the value it feeds the
    [test_nlpp] placeholder is the literal [0.0], whatever the model, the
    inputs and the targets, so it is the same in any two runs.  And [run]
    does get there: on a non-empty test array whose test error can be
    computed it returns a feed, with that error under [test_rmse]. *)
Theorem test_nlpp_is_constant_zero self g test_err :
  Xt g <> [] ->
  rmse (Yt g) (concat (batch_preds predict_y self g)) = Some test_err ->
  exists fd,
    run predict_y rmse zero self g = Some fd /\
    feed_get fd full_test_err = Some test_err /\
    feed_get fd full_test_nlpp = Some zero /\
    forall self' g' fd',
      run predict_y rmse zero self' g' = Some fd' ->
      feed_get fd' full_test_nlpp = feed_get fd full_test_nlpp.
Proof.
  intros Hne Herr. eexists.
  split; [by rewrite run_returns, Herr|].
  split; [done|]. split; [done|].
  intros self' g' fd' Hrun. by rewrite (run_feed_nlpp _ _ _ Hrun).
Qed.

End RunProperties.

(** A model that predicts each input shifted by one, on 250 test rows. *)
Lemma minibatch_predictions_cover_Xt_witness :
  let predict_y := fun (_ : unit) (xs : list Z) => (map Z.succ xs, xs) in
  let self := Monitoring.Task tt (seqZ 0 250) (seqZ 0 250) in
  let g := Monitoring.Globals (seqZ 0 250) (seqZ 0 250) in
  Monitoring.Xt g <> [] /\
  Monitoring.n_batches (Py.len (Monitoring.Xt g)) = 3 /\
  exists ps,
    Monitoring.preds predict_y self g = Some ps /\
    length ps = length (Monitoring.Xt g).
Proof.
  intros predict_y self g.
  assert (Hne : Monitoring.Xt g <> []) by (vm_compute; discriminate).
  assert (Hrows : forall b, length (fst (predict_y (Monitoring.model self) b)) = length b)
    by (intros b; simpl; apply length_map).
  destruct (minibatch_predictions_cover_Xt predict_y self g Hne Hrows)
    as (_ & _ & _ & _ & ps & Hps & _ & Hlen).
  split; [exact Hne|]. split; [reflexivity|]. exists ps. by split.
Defined.

(** The test error of the witnesses: defined when targets and predictions
    have the same number of rows. *)
Lemma test_nlpp_is_constant_zero_witness :
  let predict_y := fun (_ : unit) (xs : list Z) => (map Z.succ xs, xs) in
  let rmse := fun (ys ps : list Z) =>
                if Nat.eqb (length ys) (length ps) then Some 7 else None in
  let self := Monitoring.Task tt (seqZ 0 250) (seqZ 0 250) in
  let g := Monitoring.Globals (seqZ 0 250) (seqZ 0 250) in
  Monitoring.Xt g <> [] /\
  rmse (Monitoring.Yt g) (concat (Monitoring.batch_preds predict_y self g)) = Some 7 /\
  exists fd,
    Monitoring.run predict_y rmse 0 self g = Some fd /\
    Monitoring.feed_get fd Monitoring.full_test_nlpp = Some 0.
Proof.
  intros predict_y rmse self g.
  assert (Hne : Monitoring.Xt g <> []) by (vm_compute; discriminate).
  assert (Herr : rmse (Monitoring.Yt g)
                   (concat (Monitoring.batch_preds predict_y self g)) = Some 7)
    by reflexivity.
  destruct (test_nlpp_is_constant_zero predict_y rmse 0 self g 7 Hne Herr)
    as (fd & Hrun & _ & Hz & _).
  split; [exact Hne|]. split; [exact Herr|]. by exists fd.
Defined.

(** With 250 inputs and 100 targets the subtraction raises and nothing is
    fed. *)
Example run_mismatched_targets :
  Monitoring.run (fun (_ : unit) (xs : list Z) => (map Z.succ xs, xs))
    (fun ys ps => if Nat.eqb (length ys) (length ps) then Some 7 else None) 0
    (Monitoring.Task tt [] []) (Monitoring.Globals (seqZ 0 250) (seqZ 0 100))
  = None.
Proof. reflexivity. Qed.

(** ** The parameter-sharing cell *)

Section Sharing.

Import Tips.
Open Scope string_scope.

Lemma bind_run {A B} (m : M A) (k : A -> M B) s a s' :
  m s = Some (a, s') -> (m ≫= k) s = k a s'.
Proof. intros H. unfold mbind, M_bind. by rewrite H. Qed.

Lemma getattr_run l a s o w :
  objs s !! l = Some o -> attrs o !! a = Some w ->
  getattr (Ref l) a s = Some (w, s).
Proof. intros Ho Hw. unfold getattr. by rewrite Ho, Hw. Qed.

Lemma setattr_run l a w s o :
  objs s !! l = Some o -> compiled o = false ->
  setattr (Ref l) a w s
  = Some (tt, Store (<[l := Obj (class o) (<[a := w]> (attrs o)) (compiled o)]> (objs s))
                    (next s) (autobuild s)).
Proof. intros Ho Hc. unfold setattr. by rewrite Ho, Hc. Qed.

(** Rebinding an attribute of a compiled object raises. *)
Lemma setattr_compiled l a w s o :
  objs s !! l = Some o -> compiled o = true -> setattr (Ref l) a w s = None.
Proof. intros Ho Hc. unfold setattr. by rewrite Ho, Hc. Qed.

Lemma kernel_lengthscales_run mo i s omo ks k ok w :
  objs s !! mo = Some omo -> attrs omo !! "kernels" = Some (RefList ks) ->
  ks !! i = Some k ->
  objs s !! k = Some ok -> attrs ok !! "lengthscales" = Some w ->
  kernel_lengthscales (Ref mo) i s = Some (w, s).
Proof.
  intros Hmo Hks Hi Hk Hw. unfold kernel_lengthscales.
  rewrite (bind_run _ _ _ _ _ (getattr_run _ _ _ _ _ Hmo Hks)).
  unfold getitem at 1. unfold mbind, M_bind. rewrite Hi.
  by apply (getattr_run _ _ _ _ _ Hk Hw).
Qed.

Lemma compile_all_keeps_bindings : keeps_bindings compile_all.
Proof.
  intros l0 s _. eexists. split; [reflexivity|].
  intros l o Ho. cbn [objs]. rewrite lookup_fmap, Ho. by eexists.
Qed.



End Sharing.


(** Without the assignment the two attributes name different objects. *)
Example unshared_lengthscales_differ :
  (fst <$> (ks ← Tips.RBF_list 3;
            mo ← Tips.SeparateMixedMok ks;
            a ← Tips.kernel_lengthscales mo 0;
            b ← Tips.kernel_lengthscales mo 1;
            mret (Tips.is_ a b)) (Tips.Store ∅ 0%nat false))
  = Some false.
Proof. reflexivity. Qed.

(** ** The save cell *)

Section Saving.

Import Tips.

Context {Model : Type}.
Implicit Types (w : world Model).

Lemma save_overwriting_fresh : saves_to_fresh_path (Model := Model) save_overwriting.
Proof. intros p m w _. reflexivity. Qed.

(** After the guard no file is left at the path. *)
Lemma guard_clears_path w :
  exists w1,
    (if path_exists filename w then path_unlink filename w else Some w) = Some w1 /\
    disk w1 = delete filename (disk w) /\ printed w1 = printed w.
Proof.
  unfold path_exists, path_unlink.
  destruct (disk w !! filename) as [c|] eqn:Hc.
  - eexists. by split.
  - exists w. split; [done|]. split; [|done]. symmetry. by apply delete_id.
Qed.

(** C3 as amended: the save cell writes to disk.  For every [Saver.save]
    that creates the file when the path is free, and from every state of
    the disk, the cell ends with the model stored at [/tmp/gpr.gpflow] in
    the format of the library; every other path is as before and nothing
    is printed. *)
Theorem save_cell_writes_model_file
    (Saver_save : string -> Model -> world Model -> option (world Model)) :
  saves_to_fresh_path Saver_save ->
  forall model w,
    exists w',
      save_cell Saver_save model w = Some w' /\
      disk w' !! filename = Some (gpflow_file model) /\
      (forall p, p <> filename -> disk w' !! p = disk w !! p) /\
      printed w' = printed w.
Proof.
  intros Hsave model w. unfold save_cell.
  destruct (guard_clears_path w) as (w1 & -> & Hdisk & Hout).
  rewrite Hsave by (rewrite Hdisk; apply lookup_delete_eq).
  eexists. split; [reflexivity|]. cbn [disk printed].
  split; [apply lookup_insert_eq|]. split; [|done].
  intros p Hp. by rewrite lookup_insert_ne, Hdisk, lookup_delete_ne.
Qed.

End Saving.

Lemma save_cell_writes_model_file_witness :
  Tips.saves_to_fresh_path (Model := unit) Tips.save_overwriting /\
  exists w',
    Tips.save_cell Tips.save_overwriting tt (Tips.World ∅ []) = Some w' /\
    Tips.disk w' !! Tips.filename = Some (Tips.gpflow_file tt).
Proof.
  split; [exact save_overwriting_fresh|].
  destruct (save_cell_writes_model_file Tips.save_overwriting save_overwriting_fresh
              tt (Tips.World ∅ [])) as (w' & Hrun & Hfile & _).
  by exists w'.
Defined.

(** C3 as stated fails: run on an empty disk, the save cell leaves a file
    behind, so cell output is not the only visible effect. *)
Lemma save_cell_changes_disk :
  ~ (forall (Saver_save : string -> unit -> Tips.world unit -> option (Tips.world unit)),
        Tips.saves_to_fresh_path Saver_save ->
        forall model w w',
          Tips.save_cell Saver_save model w = Some w' -> Tips.disk w' = Tips.disk w).
Proof.
  intros H.
  specialize (H Tips.save_overwriting save_overwriting_fresh tt (Tips.World ∅ []) _ eq_refl).
  apply (f_equal (fun d => d !! Tips.filename)) in H.
  cbn [Tips.disk] in H. by rewrite lookup_insert_eq, lookup_empty in H.
Qed.

(** ** What the notebooks contain *)

Section Documents.

Import Nb.
Open Scope string_scope.

Lemma append_cons a (s t : string) : String a s +:+ t = String a (s +:+ t).
Proof. reflexivity. Qed.

(** The scanners mean what they say: [String.prefix] tests for a prefix,
    [contains] for a substring. *)
Lemma prefix_spec (p s : string) :
  String.prefix p s = true <-> exists post, s = p +:+ post.
Proof.
  revert s. induction p as [|a p IH]; intros [|b s]; simpl.
  - split; [by exists EmptyString | done].
  - split; [by eexists | done].
  - split; [done | intros [post [=]]].
  - destruct (Ascii.ascii_dec a b) as [->|Hab].
    + rewrite IH. split; intros [post Hpost]; exists post;
        rewrite append_cons in *; congruence.
    + split; [done | intros [post Hpost]].
      rewrite append_cons in Hpost. congruence.
Qed.

Lemma contains_spec (sub s : string) :
  contains sub s = true <-> exists pre post, s = pre +:+ sub +:+ post.
Proof.
  induction s as [|c s IH]; cbn [contains]; rewrite orb_true_iff, prefix_spec.
  - split.
    + intros [[post Hpost]|[=]]. by exists EmptyString, post.
    + intros (pre & post & Hs). left. exists post.
      destruct pre; [done | discriminate Hs].
  - rewrite IH. split.
    + intros [[post Hpost]|(pre & post & ->)].
      * by exists EmptyString, post.
      * by exists (String c pre), post.
    + intros (pre & post & Hs). destruct pre as [|c' pre].
      * left. by exists post.
      * right. rewrite append_cons in Hs. injection Hs as -> ->. by exists pre, post.
Qed.

(** C1 as stated fails: a notebook defines a class and two methods. *)
Lemma notebooks_define_a_class :
  ~ Forall (fun nb => class_defs nb = [] /\ function_defs nb = []) repository.
Proof.
  intros H. apply Forall_cons_1 in H as [[Hclass _] _].
  vm_compute in Hclass. discriminate Hclass.
Qed.

(** C1 as amended: the notebooks define one class of their own,
    [CustomTensorBoardTask] in the monitoring notebook, a subclass of the
    imported [mon.BaseTensorBoardTask] with the two methods [__init__] and
    [run]; no other class or function is defined in either notebook.
    Every other class they name is reached through a name that an import
    of the notebook binds: of all the capitalised names in the code, the
    ones not reached through an import are the data [X], [Y], [Xt], [Yt],
    [self.Xt], [self.Yt], [model.X], [model.Y], the keyword arguments [Z]
    and [W], the method [kernel.K], and [CustomTensorBoardTask] itself. *)
Theorem notebooks_define_one_class :
  map class_defs repository
  = [ ["class CustomTensorBoardTask(mon.BaseTensorBoardTask):"]; [] ] /\
  map function_defs repository
  = [ [ "    def __init__(self, file_writer, model, Xt, Yt):";
        "    def run(self, context: mon.MonitorContext, *args, **kwargs) -> None:" ];
      [] ] /\
  map own_definitions repository
  = [ ["CustomTensorBoardTask"; "__init__"; "run"]; [] ] /\
  In "class CustomTensorBoardTask(mon.BaseTensorBoardTask):" (source monitoring_cell_12) /\
  map import_bindings repository
  = [ [ ("itertools", "itertools"); ("os", "os"); ("np", "numpy");
        ("gpflow", "gpflow"); ("mon", "gpflow"); ("numbers", "numbers");
        ("plt", "matplotlib"); ("tf", "tensorflow") ];
      [ ("Path", "pathlib"); ("gpflow", "gpflow"); ("tf", "tensorflow");
        ("np", "numpy"); ("warnings", "warnings"); ("np", "numpy");
        ("gp", "gpflow"); ("mk", "gpflow"); ("settings", "gpflow") ] ] /\
  map (fun nb => filter (imported nb) (capitalised_names nb)) repository
  = [ [ "gpflow.models.SVGP"; "gpflow.kernels.RBF"; "gpflow.likelihoods.Gaussian";
        "mon.PrintTimingsTask"; "mon.PeriodicIterationCondition"; "mon.SleepTask";
        "mon.CheckpointTask"; "mon.LogdirWriter"; "mon.ModelToTensorBoardTask";
        "mon.LmlToTensorBoardTask"; "mon.BaseTensorBoardTask"; "mon.MonitorContext";
        "mon.Monitor"; "gpflow.train.AdamOptimizer"; "gpflow.train.ScipyOptimizer" ];
      [ "Path"; "gpflow.kernels.RBF"; "tf.Graph"; "tf.Session"; "gpflow.models.GPR";
        "gpflow.likelihoods.Gaussian"; "gpflow.models.SVGP"; "tf.Variable";
        "mk.SeparateMixedMok"; "gpflow.training.AdamOptimizer"; "gpflow.saver.Saver";
        "gpflow.saver.SaverContext" ] ] /\
  map (fun nb => filter (fun n => negb (imported nb n)) (capitalised_names nb)) repository
  = [ [ "X"; "Y"; "Xt"; "Yt"; "Z"; "self.Xt"; "self.Yt"; "CustomTensorBoardTask" ];
      [ "kernel.K"; "model.X"; "model.Y"; "Z"; "W" ] ].
Proof.
  split; [vm_compute; reflexivity|].
  split; [vm_compute; reflexivity|].
  split; [vm_compute; reflexivity|].
  split; [left; reflexivity|].
  split; [vm_compute; reflexivity|].
  split; vm_compute; reflexivity.
Qed.

(** C4 as stated fails: a cell checks an invariant with [assert]. *)
Lemma a_cell_checks_an_invariant :
  ~ Forall (fun nb => assert_stmts nb = []) repository.
Proof.
  intros H. apply Forall_cons_1 in H as [_ H].
  apply Forall_cons_1 in H as [Htips _].
  vm_compute in Htips. discriminate Htips.
Qed.

(** C4 as amended: one cell, the parameter-sharing cell of the tips
    notebook, establishes and checks an invariant over the objects it
    builds: it binds the [lengthscales] of the first kernel to that of the
    second and asserts that the two are one object.  No other cell of
    either notebook holds an assertion. *)
Theorem one_cell_asserts_shared_lengthscales :
  map assert_stmts repository
  = [ [];
      ["assert mo_kernels.kernels[0].lengthscales is mo_kernels.kernels[1].lengthscales"] ] /\
  In tips_cell_26 (cells tips) /\
  filter (mentions_any ["lengthscales = "; "assert "]) (source tips_cell_26)
  = [ "    mo_kernels.kernels[0].lengthscales = mo_kernels.kernels[1].lengthscales";
      "assert mo_kernels.kernels[0].lengthscales is mo_kernels.kernels[1].lengthscales" ].
Proof.
  split; [vm_compute; reflexivity|].
  split; [|vm_compute; reflexivity].
  vm_compute. tauto.
Qed.




End Documents.

(** * Further properties of the code *)

(** ** [CustomTensorBoardTask.run]: slices, empty input, batching *)

Section MoreBatching.

Import Monitoring.

Context {Row : Type}.
Implicit Types xs : list Row.

Lemma length_minibatch xs (k : nat) :
  length (minibatch xs (Z.of_nat k)) = (100 `min` (length xs - 100 * k))%nat.
Proof. by rewrite minibatch_take_drop, length_take, length_drop. Qed.

(** X2: slice number [mb] of the loop holds [min(100, len - 100 * mb)]
    rows, and none once [100 * mb] is past the end: every slice but the
    last is full, and the stop bound that runs past the end is clipped. *)
Theorem minibatch_length xs (mb : Z) :
  0 <= mb ->
  Py.len (minibatch xs mb) = Z.max 0 (Z.min 100 (Py.len xs - 100 * mb)).
Proof.
  intros Hmb. rewrite <- (Z2Nat.id mb) by lia.
  unfold Py.len. rewrite length_minibatch. lia.
Qed.

(** X3: when the number of rows is a multiple of 100, as with the 10000
    rows of the notebook, the loop makes [len / 100] slices of exactly 100
    rows each. *)
Theorem equal_minibatches xs :
  Py.len xs mod 100 = 0 ->
  n_batches (Py.len xs) = Py.len xs / 100 /\
  Forall (fun b => length b = 100%nat) (minibatches xs).
Proof.
  intros Hmod.
  pose proof (n_batches_bounds (Py.len xs)) as Hb.
  pose proof (Z.div_mod (Py.len xs) 100 ltac:(lia)) as Hdm.
  assert (Hk : n_batches (Py.len xs) = Py.len xs / 100) by lia.
  split; [exact Hk|].
  apply Forall_forall. intros b Hin. apply list_elem_of_In in Hin.
  unfold minibatches, Py.range in Hin. apply in_map_iff in Hin as (mb & <- & Hmb).
  apply list_elem_of_In, elem_of_seqZ in Hmb.
  rewrite <- (Z2Nat.id mb) by lia. rewrite length_minibatch.
  unfold Py.len in *. lia.
Qed.

End MoreBatching.

Lemma minibatch_length_witness :
  0 <= 2 /\
  Py.len (Monitoring.minibatch (seqZ 0 250) 2) = Z.max 0 (Z.min 100 (Py.len (seqZ 0 250) - 100 * 2)).
Proof. split; [lia|]. apply (minibatch_length (seqZ 0 250) 2). lia. Defined.

Lemma equal_minibatches_witness :
  Py.len (seqZ 0 300) mod 100 = 0 /\
  Monitoring.n_batches (Py.len (seqZ 0 300)) = Py.len (seqZ 0 300) / 100 /\
  Forall (fun b => length b = 100%nat) (Monitoring.minibatches (seqZ 0 300)).
Proof. split; [reflexivity|]. apply (equal_minibatches (seqZ 0 300)). reflexivity. Defined.

Section MoreRun.

Import Monitoring.

Context {Row Pred F Model : Type}.
Variable predict_y : Model -> list Row -> list Pred * list Pred.
Variable rmse : list Pred -> list Pred -> option F.
Variable zero : F.

Implicit Types (self : task (Row := Row) (Pred := Pred) (Model := Model)).
Implicit Types (g : globals (Row := Row) (Pred := Pred)).

(** X1: where [run] raises.  It raises, and feeds nothing to the summary,
    when the test array is empty ([np.vstack] is handed an empty list,
    whatever the model and the targets) and when the subtraction
    [Yt - preds] raises; in every other case it feeds the summary. *)
Theorem run_raises_iff self g :
  run predict_y rmse zero self g = None
  <-> Xt g = [] \/ rmse (Yt g) (concat (batch_preds predict_y self g)) = None.
Proof.
  split.
  - intros Hnone. destruct (Xt g) as [|x xs] eqn:HXt; [by left|]. right.
    rewrite run_returns in Hnone by (rewrite HXt; done).
    by destruct (rmse _ _).
  - intros [He|Herr]; [by apply run_empty|].
    destruct (Xt g) as [|x xs] eqn:HXt; [apply run_empty; done|].
    rewrite run_returns by (rewrite HXt; done). by rewrite Herr.
Qed.

(** X4: batching is transparent.  If the mean that [predict_y] returns is
    computed row by row, the stacked predictions are the predictions of
    the rows of [Xt] in order, and [run] does what it would do with the
    whole of [Xt] predicted at once: it feeds the test error of these
    predictions, or raises if that error cannot be computed. *)
Theorem batching_is_transparent self g (f : Row -> Pred) :
  Xt g <> [] ->
  (forall b, fst (predict_y (model self) b) = map f b) ->
  preds predict_y self g = Some (map f (Xt g)) /\
  run predict_y rmse zero self g
  = match rmse (Yt g) (map f (Xt g)) with
    | Some test_err => Some [(full_test_err, test_err); (full_test_nlpp, zero)]
    | None => None
    end.
Proof.
  intros Hne Hrow.
  assert (Hps : concat (batch_preds predict_y self g) = map f (Xt g)).
  { rewrite batch_preds_minibatches.
    rewrite (map_ext _ (map f) Hrow), <- concat_map.
    by rewrite concat_minibatches. }
  split.
  - by rewrite preds_returns, Hps.
  - by rewrite run_returns, Hps.
Qed.

End MoreRun.

Lemma batching_is_transparent_witness :
  let predict_y := fun (_ : unit) (xs : list Z) => (map Z.succ xs, xs) in
  let rmse := fun (ys ps : list Z) =>
                if Nat.eqb (length ys) (length ps) then Some 7 else None in
  let self := Monitoring.Task tt [] [] in
  let g := Monitoring.Globals (seqZ 0 250) (seqZ 0 250) in
  Monitoring.Xt g <> [] /\
  Monitoring.preds predict_y self g = Some (map Z.succ (seqZ 0 250)).
Proof.
  intros predict_y rmse self g.
  assert (Hne : Monitoring.Xt g <> []) by (vm_compute; discriminate).
  split; [exact Hne|].
  apply (batching_is_transparent predict_y rmse 0 self g Z.succ Hne).
  intros b. reflexivity.
Defined.

(** ** The parameter-sharing cell: extent of the sharing *)

Section MoreSharing.

Import Tips.
Open Scope string_scope.

Ltac map_lookup' :=
  cbn [objs attrs];
  repeat (rewrite lookup_insert_ne by lia);
  first [apply lookup_insert_eq | reflexivity].

(** X6: the sharing stops at the two kernels named in the assignment.
    After the cell, with [mo_kernels] the eighth object the cell creates,
    the [lengthscales] of kernels 0 and 1 are one object and that of
    kernel 2 is another. *)
Theorem sharing_leaves_third_kernel_alone (compile : value -> M unit) :
  keeps_bindings compile ->
  forall s, exists s' a b c,
    sharing_cell compile s = Some (true, s') /\
    kernel_lengthscales (Ref (7 + next s)%nat) 0 s' = Some (a, s') /\
    kernel_lengthscales (Ref (7 + next s)%nat) 1 s' = Some (b, s') /\
    kernel_lengthscales (Ref (7 + next s)%nat) 2 s' = Some (c, s') /\
    is_ a b = true /\ is_ b c = false /\ is_ a c = false.
Proof.
  intros Hc [m n ab].
  unfold sharing_cell.
  unfold defer_build at 1.
  unfold mbind at 1, M_bind at 1.
  cbn [objs next autobuild].
  unfold RBF_list, RBF, SeparateMixedMok.
  unfold mbind, M_bind, mret, M_ret, new. cbn [objs next autobuild].
  match goal with |- context [kernel_lengthscales _ 1%nat ?s] => set (s1 := s) end.
  change (7 + n)%nat with (S (S (S (S (S (S (S n))))))).
  set (mo := S (S (S (S (S (S (S n))))))) in *.
  set (k2 := S (S (S (S (S n))))) in *.
  set (p2 := S (S (S (S n)))) in *.
  set (k1 := S (S (S n))) in *.
  set (p1 := S (S n)) in *.
  set (k0 := S n) in *.
  set (ks := [k0; k1; k2]) in *.
  erewrite (kernel_lengthscales_run mo 1 s1 _ ks k1 _ (Ref p1));
    [ | subst s1 mo k2 p2 k1 p1 k0; map_lookup' ..].
  erewrite (getattr_run mo "kernels" s1 _ (RefList ks));
    [ | subst s1 mo k2 p2 k1 p1 k0; map_lookup' ..].
  cbn [getitem lookup list_lookup ks].
  erewrite (setattr_run k0 "lengthscales" _ s1);
    [ | subst s1 mo k2 p2 k1 p1 k0; map_lookup' ..].
  cbn [class attrs compiled objs next autobuild].
  match goal with |- context [compile _ ?s] => set (s2 := s) end.
  destruct (Hc mo s2) as (s3 & Hrun & Hkeep);
    [eexists; subst s2 s1 mo k2 p2 k1 p1 k0; map_lookup'|].
  rewrite Hrun.
  cbn [objs next].
  edestruct (Hkeep mo) as (omo & Hmo & Hmo_attrs);
    [subst s2 s1 mo k2 p2 k1 p1 k0; map_lookup'|].
  edestruct (Hkeep k0) as (ok0 & Hk0 & Hk0_attrs);
    [subst s2 s1 mo k2 p2 k1 p1 k0; map_lookup'|].
  edestruct (Hkeep k1) as (ok1 & Hk1 & Hk1_attrs);
    [subst s2 s1 mo k2 p2 k1 p1 k0; map_lookup'|].
  edestruct (Hkeep k2) as (ok2 & Hk2 & Hk2_attrs);
    [subst s2 s1 mo k2 p2 k1 p1 k0; map_lookup'|].
  cbn [attrs] in *.
  set (s4 := Store (objs s3) (next s3) ab).
  assert (H0 : kernel_lengthscales (Ref mo) 0 s4 = Some (Ref p1, s4)).
  { apply (kernel_lengthscales_run mo 0 s4 omo ks k0 ok0 (Ref p1));
      try done; rewrite ?Hmo_attrs, ?Hk0_attrs; reflexivity. }
  assert (H1 : kernel_lengthscales (Ref mo) 1 s4 = Some (Ref p1, s4)).
  { apply (kernel_lengthscales_run mo 1 s4 omo ks k1 ok1 (Ref p1));
      try done; rewrite ?Hmo_attrs, ?Hk1_attrs; reflexivity. }
  assert (H2 : kernel_lengthscales (Ref mo) 2 s4 = Some (Ref p2, s4)).
  { apply (kernel_lengthscales_run mo 2 s4 omo ks k2 ok2 (Ref p2));
      try done; rewrite ?Hmo_attrs, ?Hk2_attrs; reflexivity. }
  rewrite H0, H1.
  exists s4, (Ref p1), (Ref p1), (Ref p2). cbn [is_].
  rewrite Nat.eqb_refl.
  split; [reflexivity|]. split; [exact H0|]. split; [exact H1|].
  split; [exact H2|]. split; [reflexivity|].
  split; apply Nat.eqb_neq; subst p2 k1 p1; lia.
Qed.

End MoreSharing.

Lemma sharing_leaves_third_kernel_alone_witness :
  Tips.keeps_bindings Tips.compile_all /\
  exists s' a b c,
    Tips.sharing_cell Tips.compile_all (Tips.Store ∅ 0%nat false) = Some (true, s') /\
    Tips.kernel_lengthscales (Tips.Ref 7%nat) 1 s' = Some (b, s') /\
    Tips.kernel_lengthscales (Tips.Ref 7%nat) 2 s' = Some (c, s') /\
    Tips.is_ a b = true /\ Tips.is_ b c = false.
Proof.
  split; [exact compile_all_keeps_bindings|].
  destruct (sharing_leaves_third_kernel_alone Tips.compile_all compile_all_keeps_bindings
              (Tips.Store ∅ 0%nat false))
    as (s' & a & b & c & Hcell & _ & Hb & Hc & Hab & Hbc & _).
  exists s', a, b, c.
  split; [exact Hcell|]. split; [exact Hb|]. split; [exact Hc|].
  split; [exact Hab | exact Hbc].
Defined.

(** ** The save cell run again, and the load cell *)

Section MoreSaving.

Import Tips.

Context {Model : Type}.
Implicit Types (w : world Model).

Lemma save_refusing_fresh : saves_to_fresh_path (Model := Model) save_refusing.
Proof. intros p m w Hp. unfold save_refusing. by rewrite Hp. Qed.

Lemma load_gpflow_file_saved : loads_saved_file (Model := Model) load_gpflow_file.
Proof. intros p m w Hp. unfold load_gpflow_file. by rewrite Hp. Qed.

(** What one run of the cell leaves behind. *)
Lemma save_cell_result
    (Saver_save : string -> Model -> world Model -> option (world Model)) model w :
  saves_to_fresh_path Saver_save ->
  save_cell Saver_save model w
  = Some (World (<[filename := gpflow_file model]> (disk w)) (printed w)).
Proof.
  intros Hsave. unfold save_cell.
  destruct (guard_clears_path w) as (w1 & -> & Hdisk & Hout).
  rewrite Hsave by (rewrite Hdisk; apply lookup_delete_eq).
  by rewrite Hdisk, Hout, insert_delete_eq.
Qed.

(** X7: the save cell can be run again.  Because it unlinks the file
    first, a second run does not raise even with a [save] that refuses to
    write over a file; the file then holds the model of the second run,
    and a second run with the same model changes nothing. *)
Theorem save_cell_can_be_rerun
    (Saver_save : string -> Model -> world Model -> option (world Model)) :
  saves_to_fresh_path Saver_save ->
  forall m1 m2 w,
    exists w1 w2,
      save_cell Saver_save m1 w = Some w1 /\
      save_cell Saver_save m2 w1 = Some w2 /\
      disk w2 = <[filename := gpflow_file m2]> (disk w) /\
      printed w2 = printed w /\
      (m1 = m2 -> w2 = w1).
Proof.
  intros Hsave m1 m2 w. eexists; eexists.
  split; [by apply save_cell_result|].
  split; [by apply save_cell_result|].
  cbn [disk printed]. rewrite insert_insert_eq.
  split; [done|]. split; [done|]. by intros ->.
Qed.

(** X8: save, then load.  Whatever the disk held before, the load cell run
    after the save cell returns the model that was saved. *)
Theorem load_cell_returns_saved_model
    (Saver_save : string -> Model -> world Model -> option (world Model))
    (Saver_load : string -> world Model -> option Model) :
  saves_to_fresh_path Saver_save ->
  loads_saved_file Saver_load ->
  forall model w,
    exists w',
      save_cell Saver_save model w = Some w' /\
      load_cell Saver_load w' = Some model.
Proof.
  intros Hsave Hload model w. eexists.
  split; [by apply save_cell_result|].
  unfold load_cell. apply Hload. cbn [disk]. apply lookup_insert_eq.
Qed.

End MoreSaving.

(** A second run over a file left by a first run, with a [save] that
    raises on an existing file. *)
Lemma save_cell_can_be_rerun_witness :
  Tips.saves_to_fresh_path (Model := Z) Tips.save_refusing /\
  Tips.save_refusing Tips.filename 2
    (Tips.World {[ Tips.filename := Tips.gpflow_file 1 ]} []) = None /\
  exists w1 w2,
    Tips.save_cell Tips.save_refusing 1 (Tips.World ∅ []) = Some w1 /\
    Tips.save_cell Tips.save_refusing 2 w1 = Some w2 /\
    Tips.disk w2 = <[Tips.filename := Tips.gpflow_file 2]> ∅.
Proof.
  split; [exact save_refusing_fresh|]. split; [reflexivity|].
  destruct (save_cell_can_be_rerun Tips.save_refusing save_refusing_fresh
              1 2 (Tips.World ∅ [])) as (w1 & w2 & H1 & H2 & Hdisk & _).
  exists w1, w2. split; [exact H1|]. split; [exact H2 | exact Hdisk].
Defined.

Lemma load_cell_returns_saved_model_witness :
  Tips.saves_to_fresh_path (Model := Z) Tips.save_refusing /\
  Tips.loads_saved_file (Model := Z) Tips.load_gpflow_file /\
  exists w',
    Tips.save_cell Tips.save_refusing 5
      (Tips.World {[ Tips.filename := Tips.other_file "stale" ]} []) = Some w' /\
    Tips.load_cell Tips.load_gpflow_file w' = Some 5.
Proof.
  split; [exact save_refusing_fresh|]. split; [exact load_gpflow_file_saved|].
  exact (load_cell_returns_saved_model Tips.save_refusing Tips.load_gpflow_file
           save_refusing_fresh load_gpflow_file_saved 5
           (Tips.World {[ Tips.filename := Tips.other_file "stale" ]} [])).
Defined.

(** ** The loops that build a kernel: what they leave in the default graph *)

Section GraphLoops.

Import Tips.
Open Scope list_scope.

Context {Node : Type}.
Variable RBF_nodes : list Node -> list Node.
Variable K_nodes : list Node -> Z -> list Node.

Implicit Types (g : list Node) (ns : list Z).

(** One pass of the body keeps the graph it finds and adds to it. *)
Lemma build_kernel_matrix_grows n g :
  creates_nodes RBF_nodes K_nodes ->
  exists added,
    build_kernel_matrix RBF_nodes K_nodes n g = g ++ added /\
    (2 <= length added)%nat.
Proof.
  intros [Hrbf Hk]. unfold build_kernel_matrix.
  exists (RBF_nodes g ++ K_nodes (g ++ RBF_nodes g) n).
  split; [by rewrite app_assoc|].
  rewrite length_app.
  specialize (Hrbf g). specialize (Hk (g ++ RBF_nodes g) n).
  destruct (RBF_nodes g); [done|].
  destruct (K_nodes _ n); [done|]. simpl. lia.
Qed.

(** X9: the first loop only ever adds to the default graph.  After it the
    graph still starts with every node it had, and it has gained at least
    two nodes for each iteration, the variables of a kernel and the tensor
    of [K], although [kernel] and [kxx] name only the last ones. *)
Theorem growing_loop_accumulates ns g :
  creates_nodes RBF_nodes K_nodes ->
  exists added,
    growing_loop RBF_nodes K_nodes ns g = g ++ added /\
    (2 * length ns <= length added)%nat.
Proof.
  intros Hc. unfold growing_loop, for_each.
  revert g. induction ns as [|n ns IH]; intros g; simpl.
  - exists []. split; [by rewrite app_nil_r | simpl; lia].
  - destruct (build_kernel_matrix_grows n g Hc) as (a1 & -> & Hlen1).
    destruct (IH (g ++ a1)) as (a2 & -> & Hlen2).
    exists (a1 ++ a2). split; [by rewrite app_assoc|].
    rewrite length_app. lia.
Qed.

End GraphLoops.

Lemma growing_loop_accumulates_witness :
  let RBF_nodes := fun g : list Z => [Py.len g] in
  let K_nodes := fun (g : list Z) (n : Z) => [n] in
  Tips.creates_nodes RBF_nodes K_nodes /\
  Tips.growing_cell RBF_nodes K_nodes [7] = [7; 1; 2; 3; 3] /\
  exists added,
    Tips.growing_loop RBF_nodes K_nodes (Tips.range_from 2 4) [7] = [7] ++ added /\
    (2 * length (Tips.range_from 2 4) <= length added)%nat.
Proof.
  intros RBF_nodes K_nodes.
  assert (Hc : Tips.creates_nodes RBF_nodes K_nodes) by (split; intros; discriminate).
  split; [exact Hc|]. split; [reflexivity|].
  exact (growing_loop_accumulates RBF_nodes K_nodes (Tips.range_from 2 4) [7] Hc).
Defined.
